(** * python-jss: a shallow embedding of the JSS API wrapper

    The development follows the two source files of the repository:

    - [src/jss.py]            the first, single-file wrapper ([JSS],
                              [JSSObject] and six resource classes);
    - [src/jss/jssobjects.py] the resource classes of the package
                              ([Computer], [MobileDevice], [LDAPServer],
                              [FileUpload], [Policy], ...).

    XML documents are [xml.etree.ElementTree] elements; HTTP traffic is an
    explicit log of the requests that were issued, threaded through a small
    state-and-exception monad. *)

From Stdlib Require Import String Ascii List ZArith Bool Lia DecimalString.
Import ListNotations.

Set Warnings "-register-all".

Open Scope string_scope.

(* ------------------------------------------------------------------ *)
(** ** Python values used by the wrapper *)

(** An identifier handed to the wrapper: an integer (an [int] when it
    fits the machine word, a [long] beyond) or a [str]. *)
Inductive PyId : Type :=
| PyInt (n : Z)
| PyStr (s : string).

(** [str(x)] *)
Definition str (x : PyId) : string :=
  match x with
  | PyInt n => NilZero.string_of_int (Z.to_int n)
  | PyStr s => s
  end.

(** Truth value of a string: only the empty string is false. *)
Definition str_truthy (s : string) : bool :=
  match s with
  | EmptyString => false
  | String _ _ => true
  end.

(** Truth value of [None]-or-string, as in [if x:] and [x or y]. *)
Definition truthy (x : option string) : bool :=
  match x with
  | None => false
  | Some s => str_truthy s
  end.

(** [x or y] on [None]-or-string values. *)
Definition py_or (x y : option string) : option string :=
  if truthy x then x else y.

(** [x in xs] for a list of strings. *)
Definition str_in (x : string) (xs : list string) : bool :=
  existsb (String.eqb x) xs.

(** [sep.join(parts)] *)
Fixpoint join (sep : string) (parts : list string) : string :=
  match parts with
  | [] => ""
  | [p] => p
  | p :: rest => p ++ sep ++ join sep rest
  end.

(** [repr] of a list of plain strings, as ["%s" % a_list] prints it. *)
Definition repr_list (xs : list string) : string :=
  "[" ++ join ", " (map (fun x => "'" ++ x ++ "'") xs) ++ "]".

(** [s.split(sep)] for a one-character separator. *)
Fixpoint split_on (sep : ascii) (s : string) : list string :=
  match s with
  | EmptyString => [EmptyString]
  | String c rest =>
      if Ascii.eqb c sep then EmptyString :: split_on sep rest
      else match split_on sep rest with
           | [] => [String c EmptyString]
           | w :: ws => String c w :: ws
           end
  end.

(** [os.path.basename(p)]: what follows the last slash. *)
Definition basename (p : string) : string :=
  last (split_on "/"%char p) "".

(** First result of a partial function along a list (a generator's first
    item). *)
Fixpoint first_some {A B : Type} (f : A -> option B) (l : list A) : option B :=
  match l with
  | [] => None
  | x :: rest => match f x with
                 | Some y => Some y
                 | None => first_some f rest
                 end
  end.

(** Rewrite the first item that satisfies [p], in place. *)
Fixpoint update_first {A : Type} (p : A -> bool) (g : A -> A) (l : list A)
  : list A :=
  match l with
  | [] => []
  | x :: rest => if p x then g x :: rest else x :: update_first p g rest
  end.

Definition is_some {A : Type} (x : option A) : bool :=
  match x with Some _ => true | None => false end.

(* ------------------------------------------------------------------ *)
(** ** [xml.etree.ElementTree] *)

Module ElementTree.

(** An element: tag, attributes, text, tail and the ordered children. *)
Inductive Element : Type :=
  mkElement { tag : string;
              attrib : list (string * string);
              text : option string;
              tail : option string;
              children : list Element }.

(** [Element(tag)] *)
Definition new_element (t : string) : Element :=
  mkElement t [] None None [].

(** [len(elem)] *)
Definition len (e : Element) : Z := Z.of_nat (length (children e)).

Definition set_children (e : Element) (cs : list Element) : Element :=
  mkElement (tag e) (attrib e) (text e) (tail e) cs.

Definition set_text (e : Element) (t : option string) : Element :=
  mkElement (tag e) (attrib e) t (tail e) (children e).

(** [elem.append(child)] *)
Definition append (e child : Element) : Element :=
  set_children e (children e ++ [child])%list.

(** A path of the wrapper is a slash-separated sequence of tag names
    (no wildcard, predicate or [//] step occurs at any call site). *)
Definition steps (path : string) : list string := split_on "/"%char path.

Definition has_tag (t : string) (e : Element) : bool := String.eqb (tag e) t.

(** [ElementPath.iterfind], first item: the selectors are applied one
    after the other to every candidate, so the first match in document
    order is returned even when an earlier branch dead-ends. *)
Fixpoint find_steps (p : list string) (e : Element) : option Element :=
  match p with
  | [] => Some e
  | t :: rest =>
      first_some (fun c => if has_tag t c then find_steps rest c else None)
                 (children e)
  end.

(** [elem.find(path)] *)
Definition find (e : Element) (path : string) : option Element :=
  find_steps (steps path) e.

(** [elem.findtext(path)]: [None] when nothing matches, the text
    otherwise, with [""] standing for a missing text. *)
Definition findtext (e : Element) (path : string) : option string :=
  match find e path with
  | None => None
  | Some x => Some (match text x with Some s => s | None => "" end)
  end.

(** The element that [find] returns, rewritten in place by [f]. *)
Fixpoint update_steps (p : list string) (f : Element -> Element)
         (e : Element) : Element :=
  match p with
  | [] => f e
  | t :: rest =>
      set_children e
        (update_first (fun c => has_tag t c && is_some (find_steps rest c))
                      (update_steps rest f)
                      (children e))
  end.

(** A handle on an element of a document under construction: the child
    indices from the root. Python holds a reference; the index path names
    the same element as long as children are only appended. *)
Definition Handle : Type := list nat.

Fixpoint elem_at (h : Handle) (root : Element) : option Element :=
  match h with
  | [] => Some root
  | i :: rest => match nth_error (children root) i with
                 | Some c => elem_at rest c
                 | None => None
                 end
  end.

Fixpoint update_nth {A : Type} (i : nat) (g : A -> A) (l : list A) : list A :=
  match l, i with
  | [], _ => []
  | x :: rest, O => g x :: rest
  | x :: rest, S j => x :: update_nth j g rest
  end.

Fixpoint modify_at (h : Handle) (f : Element -> Element) (root : Element)
  : Element :=
  match h with
  | [] => f root
  | i :: rest => set_children root (update_nth i (modify_at rest f) (children root))
  end.

(** Building a document: the state is the tree being built. *)
Definition Build (A : Type) : Type := Element -> A * Element.

Definition bret {A : Type} (a : A) : Build A := fun d => (a, d).

Definition bbind {A B : Type} (m : Build A) (k : A -> Build B) : Build B :=
  fun d => let (a, d') := m d in k a d'.

(** [ElementTree.SubElement(parent, tag)]: a new element appended to
    [parent]; the handle of the new element is returned. *)
Definition SubElement (parent : Handle) (t : string) : Build Handle :=
  fun d =>
    let n := match elem_at parent d with
             | Some p => length (children p)
             | None => O
             end in
    ((parent ++ [n])%list, modify_at parent (fun p => append p (new_element t)) d).

(** [handle.text = s] *)
Definition assign_text (h : Handle) (s : option string) : Build unit :=
  fun d => (tt, modify_at h (fun e => set_text e s) d).

End ElementTree.

Import ElementTree.

(* ------------------------------------------------------------------ *)
(** ** Exceptions, the request log and the effect monad *)

(** The exception classes the two files declare, import or can meet. *)
Inductive Exception : Type :=
| JSSPrefsMissingKeyError (msg : string)
| JSSAuthenticationError (msg : string)
| JSSConnectionError (msg : string)
| JSSGetError (msg : string)
| JSSMethodNotAllowedError (msg : string)
| JSSPostError (status_code : Z) (body : string)
| JSSFileUploadParameterError (msg : string)
| ParseError
| AttributeError
| TypeError
| IOError (path : string)
| TransportError (msg : string).

Inductive Outcome (A : Type) : Type :=
| Ok (a : A)
| Raise (e : Exception).
Arguments Ok {A} a.
Arguments Raise {A} e.

Inductive Verb : Type := GET | POST | PUT | DELETE.

(** One call of the [requests] library. *)
Record Request : Type :=
  mkRequest { verb : Verb;
              req_url : string;
              auth : option string * option string;
              verify : bool;
              files : option string }.

(** A [requests] response: [status_code] and [text]. *)
Record Response : Type :=
  mkResponse { status_code : Z; resp_text : string }.

(** What the program has done to the outside so far: the requests it
    sent (oldest first), what it printed, the files it opened. *)
Record World : Type :=
  mkWorld { sent : list Request;
            stdout : list string;
            opened : list string }.

Definition M (A : Type) : Type := World -> Outcome A * World.

Definition ret {A : Type} (a : A) : M A := fun w => (Ok a, w).

Definition raise {A : Type} (e : Exception) : M A := fun w => (Raise e, w).

Definition bind {A B : Type} (m : M A) (k : A -> M B) : M B :=
  fun w => match m w with
           | (Ok a, w') => k a w'
           | (Raise e, w') => (Raise e, w')
           end.

Declare Scope py_scope.
Delimit Scope py_scope with py.
Notation "x <- m ;; k" := (bind m (fun x => k))
  (at level 61, m at next level, right associativity) : py_scope.
Notation "m ;;; k" := (bind m (fun _ => k))
  (at level 61, right associativity) : py_scope.
Open Scope py_scope.

(** [print x] *)
Definition print (s : string) : M unit :=
  fun w => (Ok tt, mkWorld (sent w) (stdout w ++ [s])%list (opened w)).

(** [[f(x) for x in xs]] when [f] has effects. *)
Fixpoint mapM {A B : Type} (f : A -> M B) (xs : list A) : M (list B) :=
  match xs with
  | [] => ret []
  | x :: rest => y <- f x ;; ys <- mapM f rest ;; ret (y :: ys)
  end.

(** ["%s" % x] for a value that may be [None]. *)
Definition fmt_s (x : option string) : string :=
  match x with
  | Some s => s
  | None => "None"
  end.

(** The outside of the program: the remote service, which answers a
    request knowing the earlier ones (or the transport fails), the XML
    parser, the local files, the MIME table and the largest [int] of the
    platform ([sys.maxint]). *)
Record Outside : Type :=
  mkOutside { http : list Request -> Request -> Outcome Response;
              fromstring : string -> option Element;
              file_exists : string -> bool;
              guess_type : string -> option string;
              maxint : Z }.

(** A call of [requests.get] / [requests.post]: the request is logged,
    then answered. *)
Definition send (env : Outside) (r : Request) : M Response :=
  fun w => (http env (sent w) r,
            mkWorld (sent w ++ [r])%list (stdout w) (opened w)).

(** [ElementTree.fromstring(data)] *)
Definition parse (env : Outside) (data : string) : M Element :=
  match fromstring env data with
  | Some x => ret x
  | None => raise ParseError
  end.

(** [open(path, "rb")] *)
Definition open_rb (env : Outside) (path : string) : M string :=
  fun w => if file_exists env path
           then (Ok path, mkWorld (sent w) (stdout w) (opened w ++ [path])%list)
           else (Raise (IOError path), w).

(* ------------------------------------------------------------------ *)
(** ** [src/jss.py] *)

Module Jss.

Record JSSPrefs : Type :=
  mkJSSPrefs { prefs_user : option string;
               prefs_password : option string;
               prefs_url : option string }.

(** [class JSS] *)
Record JSS : Type :=
  mkJSS { _url : string;
          user : option string;
          password : option string;
          ssl_verify : bool }.

(** [JSS.__init__] *)
Definition JSS_init (jss_prefs : option JSSPrefs)
           (url user password : option string) (ssl_verify : bool) : JSS :=
  match jss_prefs with
  | Some p =>
      mkJSS (fmt_s (prefs_url p) ++ "/JSSResource")
            (prefs_user p) (prefs_password p) ssl_verify
  | None =>
      mkJSS (fmt_s url ++ "/JSSResource") user password ssl_verify
  end.

(** The classes of the file: the base class and its six subclasses. *)
Inductive ObjClass : Type :=
| JSSObject
| Computer
| ComputerGroup
| MobileDevice
| MobileDeviceConfigurationProfile
| MobileDeviceGroup
| Policy.

(** The class attribute [_url]. *)
Definition class_url (c : ObjClass) : option string :=
  match c with
  | JSSObject => None
  | Computer => Some "/computers"
  | ComputerGroup => Some "/computergroups"
  | MobileDevice => Some "/mobiledevices"
  | MobileDeviceConfigurationProfile => Some "/mobiledeviceconfigurationprofiles"
  | MobileDeviceGroup => Some "/mobiledevicegroups"
  | Policy => Some "/policies"
  end.

(** What [self.xml] holds: an element, or the [data] argument itself when
    [__init__] did not fetch for it. *)
Inductive Xml : Type :=
| XElement (e : Element)
| XValue (v : PyId).

(** An instance of [JSSObject] or of a subclass. *)
Record Object : Type :=
  mkObject { cls : ObjClass; jss : JSS; xml : Xml }.

(** The [data] argument of [JSSObject.__init__]. *)
Inductive Data : Type :=
| DNone
| DId (i : PyId)
| DElement (e : Element).

Section WithOutside.

Variable env : Outside.

(** [JSS.get_request] *)
Definition get_request (self : JSS) (url : string) : M Element :=
  response <- send env (mkRequest GET url (user self, password self)
                                  (ssl_verify self) None) ;;
  if (status_code response =? 401)%Z then
    raise (JSSAuthenticationError
             "Authentication error: check the api username and password")
  else if (status_code response =? 404)%Z then
    raise (JSSGetError ("Object " ++ url ++ " does not exist!"))
  else
    let jss_results := resp_text response in
    parse env jss_results.

(** [JSS.raw_get] *)
Definition raw_get (self : JSS) (path : string) : M Element :=
  let url := _url self ++ path in
  get_request self url.

(** The address [JSS.get] builds for a class and an optional id. *)
Definition get_url (self : JSS) (obj_class : ObjClass) (id_ : option PyId)
  : string :=
  let url := class_url obj_class in
  match id_ with
  | Some i => _url self ++ fmt_s url ++ "/id/" ++ str i
  | None => _url self ++ fmt_s url
  end.

(** [JSS.get] *)
Definition get (self : JSS) (obj_class : ObjClass) (id_ : option PyId)
  : M Element :=
  let url := get_url self obj_class id_ in
  match id_ with
  | Some _ => print url ;;; get_request self url
  | None => get_request self url
  end.

(** [type(n) is int]: the integer fits the machine word; beyond it is a
    [long]. *)
Definition is_int (n : Z) : bool :=
  ((- maxint env - 1 <=? n) && (n <=? maxint env))%Z.

(** [type(data) in [int, str]] *)
Definition int_or_str (i : PyId) : bool :=
  match i with
  | PyInt n => is_int n
  | PyStr _ => true
  end.

(** [JSSObject.__init__], called as [obj_class(jss, data)]: it fetches
    for [None], an [int] or a [str], and keeps any other argument as it
    is. *)
Definition Object_init (c : ObjClass) (j : JSS) (data : Data) : M Object :=
  match data with
  | DNone => x <- get j c None ;; ret (mkObject c j (XElement x))
  | DId i =>
      if int_or_str i
      then x <- get j c (Some i) ;; ret (mkObject c j (XElement x))
      else ret (mkObject c j (XValue i))
  | DElement e => ret (mkObject c j (XElement e))
  end.

(** [JSS.list] *)
Definition list (self : JSS) (obj_class : ObjClass) : M (list Object) :=
  let url := class_url obj_class in
  let url := _url self ++ fmt_s url in
  xmldata <- get_request self url ;;
  mapM (fun item => Object_init obj_class self (DElement item))
       (filter (fun item => negb (String.eqb (tag item) "size"))
               (children xmldata)).

(** [JSS.post], [JSS.put], [JSS.delete]: [pass]. *)
Definition post (self : JSS) (url : string) : M unit := ret tt.
Definition put (self : JSS) (url : string) : M unit := ret tt.
Definition delete (self : JSS) (url : string) : M unit := ret tt.

(** [JSSObject.list], a class method. *)
Definition Object_list (c : ObjClass) (j : JSS)
  : M (Datatypes.list Object) :=
  list j c.

(** [JSS._get_list_or_object] *)
Definition _get_list_or_object (self : JSS) (c : ObjClass)
           (id_ : option PyId) : M (Datatypes.list Object + Object) :=
  match id_ with
  | None => l <- Object_list c self ;; ret (inl l)
  | Some i => o <- Object_init c self (DId i) ;; ret (inr o)
  end.

End WithOutside.

(** [JSSObject.name] and [JSSObject.id]: the text of the child, an
    [AttributeError] when there is no such child or no element to search. *)
Definition name (o : Object) : Outcome (option string) :=
  match xml o with
  | XElement x =>
      match find x "name" with
      | Some e => Ok (text e)
      | None => Raise AttributeError
      end
  | XValue _ => Raise AttributeError
  end.

Definition id (o : Object) : Outcome (option string) :=
  match xml o with
  | XElement x =>
      match find x "id" with
      | Some e => Ok (text e)
      | None => Raise AttributeError
      end
  | XValue _ => Raise AttributeError
  end.

End Jss.

(* ------------------------------------------------------------------ *)
(** ** [src/jss/jssobjects.py] *)

Module JssObjects.

(** The four base classes the file imports from [jssobject]. *)
Inductive BaseClass : Type :=
| JSSContainerObject
| JSSFlatObject
| JSSGroupObject
| JSSDeviceObject.

(** The value of a class attribute. *)
Inductive Value : Type :=
| VStr (s : string)
| VBool (b : bool)
| VDict (d : list (string * string)).

(** A class statement: name, base class and the attributes of its body. *)
Record ClassDef : Type :=
  mkClass { class_name : string;
            base : BaseClass;
            body : list (string * Value) }.

(** The resource classes of the file, in its order. *)
Inductive ResourceClass : Type :=
| Account | AccountGroup | ActivationCode | AdvancedComputerSearch
| AdvancedMobileDeviceSearch | AdvancedUserSearch | Building | BYOProfile
| Category | Class_ | Computer | ComputerCheckIn | ComputerCommand
| ComputerConfiguration | ComputerExtensionAttribute | ComputerGroup
| ComputerInventoryCollection | ComputerInvitation | ComputerReport
| Department | DirectoryBinding | DiskEncryptionConfiguration
| DistributionPoint | DockItem | EBook | GSXConnection | IBeacon | JSSUser
| LDAPServer | LDAPUsersResults | LDAPGroupsResults | LicensedSoftware
| MacApplication | ManagedPreferenceProfile | MobileDevice
| MobileDeviceApplication | MobileDeviceCommand
| MobileDeviceConfigurationProfile | MobileDeviceEnrollmentProfile
| MobileDeviceExtensionAttribute | MobileDeviceInvitation
| MobileDeviceGroup | MobileDeviceProvisioningProfile | NetbootServer
| NetworkSegment | OSXConfigurationProfile | Package | Peripheral
| PeripheralType | Policy | Printer | RestrictedSoftware
| RemovableMACAddress | SavedSearch | Script | Site | SoftwareUpdateServer
| SMTPServer | UserExtensionAttribute | User | UserGroup | VPPAccount.

Definition all_classes : list ResourceClass :=
  [ Account; AccountGroup; ActivationCode; AdvancedComputerSearch;
    AdvancedMobileDeviceSearch; AdvancedUserSearch; Building; BYOProfile;
    Category; Class_; Computer; ComputerCheckIn; ComputerCommand;
    ComputerConfiguration; ComputerExtensionAttribute; ComputerGroup;
    ComputerInventoryCollection; ComputerInvitation; ComputerReport;
    Department; DirectoryBinding; DiskEncryptionConfiguration;
    DistributionPoint; DockItem; EBook; GSXConnection; IBeacon; JSSUser;
    LDAPServer; LDAPUsersResults; LDAPGroupsResults; LicensedSoftware;
    MacApplication; ManagedPreferenceProfile; MobileDevice;
    MobileDeviceApplication; MobileDeviceCommand;
    MobileDeviceConfigurationProfile; MobileDeviceEnrollmentProfile;
    MobileDeviceExtensionAttribute; MobileDeviceInvitation;
    MobileDeviceGroup; MobileDeviceProvisioningProfile; NetbootServer;
    NetworkSegment; OSXConfigurationProfile; Package; Peripheral;
    PeripheralType; Policy; Printer; RestrictedSoftware;
    RemovableMACAddress; SavedSearch; Script; Site; SoftwareUpdateServer;
    SMTPServer; UserExtensionAttribute; User; UserGroup; VPPAccount ].

Definition device_search_types : list (string * string) :=
  [("name", "/name/"); ("serial_number", "/serialnumber/");
   ("udid", "/udid/"); ("macaddress", "/macadress/"); ("match", "/match/")].

(** The class statements, attribute for attribute. *)
Definition class_def (c : ResourceClass) : ClassDef :=
  match c with
  | Account =>
      mkClass "Account" JSSContainerObject
        [("_url", VStr "/accounts"); ("container", VStr "users");
         ("id_url", VStr "/userid/");
         ("search_types", VDict [("userid", "/userid/");
                                 ("username", "/username/");
                                 ("name", "/username/")])]
  | AccountGroup =>
      mkClass "AccountGroup" JSSContainerObject
        [("_url", VStr "/accounts"); ("container", VStr "groups");
         ("id_url", VStr "/groupid/");
         ("search_types", VDict [("groupid", "/groupid/");
                                 ("groupname", "/groupname/");
                                 ("name", "/groupname/")])]
  | ActivationCode =>
      mkClass "ActivationCode" JSSFlatObject
        [("_url", VStr "/activationcode");
         ("list_type", VStr "activation_code");
         ("can_delete", VBool false); ("can_post", VBool false);
         ("can_list", VBool false)]
  | AdvancedComputerSearch =>
      mkClass "AdvancedComputerSearch" JSSContainerObject
        [("_url", VStr "/advancedcomputersearches")]
  | AdvancedMobileDeviceSearch =>
      mkClass "AdvancedMobileDeviceSearch" JSSContainerObject
        [("_url", VStr "/advancedmobiledevicesearches")]
  | AdvancedUserSearch =>
      mkClass "AdvancedUserSearch" JSSContainerObject
        [("_url", VStr "/advancedusersearches")]
  | Building =>
      mkClass "Building" JSSContainerObject
        [("_url", VStr "/buildings"); ("list_type", VStr "building")]
  | BYOProfile =>
      mkClass "BYOProfile" JSSContainerObject
        [("_url", VStr "/byoprofiles"); ("list_type", VStr "byoprofiles");
         ("can_delete", VBool false); ("can_post", VBool false)]
  | Category =>
      mkClass "Category" JSSContainerObject
        [("_url", VStr "/categories"); ("list_type", VStr "category")]
  | Class_ =>
      mkClass "Class" JSSContainerObject [("_url", VStr "/classes")]
  | Computer =>
      mkClass "Computer" JSSDeviceObject
        [("list_type", VStr "computer"); ("_url", VStr "/computers");
         ("search_types", VDict device_search_types)]
  | ComputerCheckIn =>
      mkClass "ComputerCheckIn" JSSFlatObject
        [("_url", VStr "/computercheckin"); ("can_delete", VBool false);
         ("can_list", VBool false); ("can_post", VBool false)]
  | ComputerCommand =>
      mkClass "ComputerCommand" JSSContainerObject
        [("_url", VStr "/computercommands"); ("can_delete", VBool false);
         ("can_put", VBool false); ("can_post", VBool false)]
  | ComputerConfiguration =>
      mkClass "ComputerConfiguration" JSSContainerObject
        [("_url", VStr "/computerconfigurations");
         ("list_type", VStr "computer_configuration")]
  | ComputerExtensionAttribute =>
      mkClass "ComputerExtensionAttribute" JSSContainerObject
        [("_url", VStr "/computerextensionattributes")]
  | ComputerGroup =>
      mkClass "ComputerGroup" JSSGroupObject
        [("_url", VStr "/computergroups");
         ("list_type", VStr "computer_group")]
  | ComputerInventoryCollection =>
      mkClass "ComputerInventoryCollection" JSSFlatObject
        [("_url", VStr "/computerinventorycollection");
         ("can_list", VBool false); ("can_post", VBool false);
         ("can_delete", VBool false)]
  | ComputerInvitation =>
      mkClass "ComputerInvitation" JSSContainerObject
        [("_url", VStr "/computerinvitations"); ("can_put", VBool false);
         ("search_types", VDict [("name", "/name/");
                                 ("invitation", "/invitation/")])]
  | ComputerReport =>
      mkClass "ComputerReport" JSSContainerObject
        [("_url", VStr "/computerreports"); ("can_put", VBool false);
         ("can_post", VBool false); ("can_delete", VBool false)]
  | Department =>
      mkClass "Department" JSSContainerObject
        [("_url", VStr "/departments"); ("list_type", VStr "department")]
  | DirectoryBinding =>
      mkClass "DirectoryBinding" JSSContainerObject
        [("_url", VStr "/directorybindings")]
  | DiskEncryptionConfiguration =>
      mkClass "DiskEncryptionConfiguration" JSSContainerObject
        [("_url", VStr "/diskencryptionconfigurations")]
  | DistributionPoint =>
      mkClass "DistributionPoint" JSSContainerObject
        [("_url", VStr "/distributionpoints")]
  | DockItem =>
      mkClass "DockItem" JSSContainerObject [("_url", VStr "/dockitems")]
  | EBook =>
      mkClass "EBook" JSSContainerObject [("_url", VStr "/ebooks")]
  | GSXConnection =>
      mkClass "GSXConnection" JSSFlatObject
        [("_url", VStr "/gsxconnection"); ("can_list", VBool false);
         ("can_post", VBool false); ("can_delete", VBool false)]
  | IBeacon =>
      mkClass "IBeacon" JSSContainerObject
        [("_url", VStr "/ibeacons"); ("list_type", VStr "ibeacon")]
  | JSSUser =>
      mkClass "JSSUser" JSSFlatObject
        [("_url", VStr "/jssuser"); ("can_list", VBool false);
         ("can_post", VBool false); ("can_put", VBool false);
         ("can_delete", VBool false); ("search_types", VDict [])]
  | LDAPServer =>
      mkClass "LDAPServer" JSSContainerObject
        [("_url", VStr "/ldapservers")]
  | LDAPUsersResults =>
      mkClass "LDAPUsersResults" JSSContainerObject
        [("can_get", VBool false); ("can_post", VBool false);
         ("can_put", VBool false); ("can_delete", VBool false)]
  | LDAPGroupsResults =>
      mkClass "LDAPGroupsResults" JSSContainerObject
        [("can_get", VBool false); ("can_post", VBool false);
         ("can_put", VBool false); ("can_delete", VBool false)]
  | LicensedSoftware =>
      mkClass "LicensedSoftware" JSSContainerObject
        [("_url", VStr "/licensedsoftware")]
  | MacApplication =>
      mkClass "MacApplication" JSSContainerObject
        [("_url", VStr "/macapplications");
         ("list_type", VStr "mac_application")]
  | ManagedPreferenceProfile =>
      mkClass "ManagedPreferenceProfile" JSSContainerObject
        [("_url", VStr "/managedpreferenceprofiles")]
  | MobileDevice =>
      mkClass "MobileDevice" JSSDeviceObject
        [("_url", VStr "/mobiledevices");
         ("list_type", VStr "mobile_device");
         ("search_types", VDict device_search_types)]
  | MobileDeviceApplication =>
      mkClass "MobileDeviceApplication" JSSContainerObject
        [("_url", VStr "/mobiledeviceapplications")]
  | MobileDeviceCommand =>
      mkClass "MobileDeviceCommand" JSSContainerObject
        [("_url", VStr "/mobiledevicecommands"); ("can_put", VBool false);
         ("can_delete", VBool false);
         ("search_types", VDict [("name", "/name/"); ("uuid", "/uuid/");
                                 ("command", "/command/")]);
         ("can_post", VBool false)]
  | MobileDeviceConfigurationProfile =>
      mkClass "MobileDeviceConfigurationProfile" JSSContainerObject
        [("_url", VStr "/mobiledeviceconfigurationprofiles")]
  | MobileDeviceEnrollmentProfile =>
      mkClass "MobileDeviceEnrollmentProfile" JSSContainerObject
        [("_url", VStr "/mobiledeviceenrollmentprofiles");
         ("search_types", VDict [("name", "/name/");
                                 ("invitation", "/invitation/")])]
  | MobileDeviceExtensionAttribute =>
      mkClass "MobileDeviceExtensionAttribute" JSSContainerObject
        [("_url", VStr "/mobiledeviceextensionattributes")]
  | MobileDeviceInvitation =>
      mkClass "MobileDeviceInvitation" JSSContainerObject
        [("_url", VStr "/mobiledeviceinvitations"); ("can_put", VBool false);
         ("search_types", VDict [("invitation", "/invitation/")])]
  | MobileDeviceGroup =>
      mkClass "MobileDeviceGroup" JSSGroupObject
        [("_url", VStr "/mobiledevicegroups");
         ("list_type", VStr "mobile_device_group")]
  | MobileDeviceProvisioningProfile =>
      mkClass "MobileDeviceProvisioningProfile" JSSContainerObject
        [("_url", VStr "/mobiledeviceprovisioningprofiles");
         ("search_types", VDict [("name", "/name/"); ("uuid", "/uuid/")])]
  | NetbootServer =>
      mkClass "NetbootServer" JSSContainerObject
        [("_url", VStr "/netbootservers")]
  | NetworkSegment =>
      mkClass "NetworkSegment" JSSContainerObject
        [("_url", VStr "/networksegments")]
  | OSXConfigurationProfile =>
      mkClass "OSXConfigurationProfile" JSSContainerObject
        [("_url", VStr "/osxconfigurationprofiles")]
  | Package =>
      mkClass "Package" JSSContainerObject
        [("_url", VStr "/packages"); ("list_type", VStr "package")]
  | Peripheral =>
      mkClass "Peripheral" JSSContainerObject
        [("_url", VStr "/peripherals"); ("search_types", VDict [])]
  | PeripheralType =>
      mkClass "PeripheralType" JSSContainerObject
        [("_url", VStr "/peripheraltypes"); ("search_types", VDict [])]
  | Policy =>
      mkClass "Policy" JSSContainerObject
        [("_url", VStr "/policies"); ("list_type", VStr "policy")]
  | Printer =>
      mkClass "Printer" JSSContainerObject [("_url", VStr "/printers")]
  | RestrictedSoftware =>
      mkClass "RestrictedSoftware" JSSContainerObject
        [("_url", VStr "/restrictedsoftware")]
  | RemovableMACAddress =>
      mkClass "RemovableMACAddress" JSSContainerObject
        [("_url", VStr "/removablemacaddresses")]
  | SavedSearch =>
      mkClass "SavedSearch" JSSContainerObject
        [("_url", VStr "/savedsearches"); ("can_put", VBool false);
         ("can_post", VBool false); ("can_delete", VBool false)]
  | Script =>
      mkClass "Script" JSSContainerObject
        [("_url", VStr "/scripts"); ("list_type", VStr "script")]
  | Site =>
      mkClass "Site" JSSContainerObject
        [("_url", VStr "/sites"); ("list_type", VStr "site")]
  | SoftwareUpdateServer =>
      mkClass "SoftwareUpdateServer" JSSContainerObject
        [("_url", VStr "/softwareupdateservers")]
  | SMTPServer =>
      mkClass "SMTPServer" JSSFlatObject
        [("_url", VStr "/smtpserver"); ("id_url", VStr "");
         ("can_list", VBool false); ("can_post", VBool false);
         ("search_types", VDict [])]
  | UserExtensionAttribute =>
      mkClass "UserExtensionAttribute" JSSContainerObject
        [("_url", VStr "/userextensionattributes")]
  | User =>
      mkClass "User" JSSContainerObject [("_url", VStr "/users")]
  | UserGroup =>
      mkClass "UserGroup" JSSContainerObject [("_url", VStr "/usergroups")]
  | VPPAccount =>
      mkClass "VPPAccount" JSSContainerObject
        [("_url", VStr "/vppaccounts"); ("list_type", VStr "vpp_account")]
  end.

(** Lookup of an attribute in a class body. *)
Fixpoint lookup (k : string) (d : list (string * Value)) : option Value :=
  match d with
  | [] => None
  | (k', v) :: rest => if String.eqb k k' then Some v else lookup k rest
  end.

(** Modelled from the spec: the defaults of the capability flags live in
    the base classes of [jssobject.py], which is not among the sources;
    the spec gives them as all permitted except where a class overrides
    them. *)
Definition base_default (b : BaseClass) (flag : string) : bool := true.

(** [cls.can_get], [cls.can_list], [cls.can_post], [cls.can_put],
    [cls.can_delete]: the class body first, then the base class. *)
Definition can (c : ResourceClass) (flag : string) : bool :=
  match lookup flag (body (class_def c)) with
  | Some (VBool b) => b
  | _ => base_default (base (class_def c)) flag
  end.

(** The connection object of the package, as this file uses it:
    [_url], [session.auth], [session.verify] and [verbose]. *)
Record JSS : Type :=
  mkJSS { _url : string;
          session_auth : option string * option string;
          session_verify : bool;
          verbose : bool }.

(** An instance of a resource class. The instance is itself an
    [Element] (the file passes [self] to [ElementTree.SubElement]);
    [doc] is that element. *)
Record Object : Type :=
  mkObject { cls : ResourceClass; jss : JSS; doc : Element }.

(** [isinstance(obj, C)]: no class of the file derives from another. *)
Definition class_eqb (a b : ResourceClass) : bool :=
  String.eqb (class_name (class_def a)) (class_name (class_def b)).

Definition isinstance (obj : Object) (c : ResourceClass) : bool :=
  class_eqb (cls obj) c.

(** *** Computer *)

(** [Computer.mac_addresses]: the [return] belongs to the [if]; without
    a secondary address the method ends and yields [None]. *)
Definition mac_addresses (self : Object) : option (list (option string)) :=
  let mac_addresses := [findtext (doc self) "general/mac_address"] in
  if truthy (findtext (doc self) "general/alt_mac_address") then
    let mac_addresses :=
      (mac_addresses ++ [findtext (doc self) "general/alt_mac_address"])%list in
    Some mac_addresses
  else None.

(** *** MobileDevice *)

(** [MobileDevice.wifi_mac_address] *)
Definition wifi_mac_address (self : Object) : option string :=
  findtext (doc self) "general/wifi_mac_address".

(** [MobileDevice.bluetooth_mac_address] *)
Definition bluetooth_mac_address (self : Object) : option string :=
  py_or (findtext (doc self) "general/bluetooth_mac_address")
        (findtext (doc self) "general/mac_address").

(** *** LDAPServer *)

(** [a == b] for two [None]-or-string values. *)
Definition opt_str_eqb (a b : option string) : bool :=
  match a, b with
  | Some x, Some y => String.eqb x y
  | None, None => true
  | _, _ => false
  end.

Section LDAP.

(** [JSS.get(url)] of the package and the [url] property of an
    object come from modules that are not among the sources; the
    method is read for any such pair. *)
Variable jss_get : JSS -> string -> M Element.
Variable url : Object -> string.

(** [LDAPServer.is_user_in_group] *)
Definition is_user_in_group (self : Object) (user group : string) : M bool :=
  let search_url :=
    url self ++ "/" ++ "group" ++ "/" ++ group ++ "/" ++ "user" ++ "/" ++ user in
  response <- jss_get (jss self) search_url ;;
  let length := len response in
  let result := false in
  if (length =? 1)%Z then
    ret result
  else if (length =? 2)%Z then
    if opt_str_eqb (findtext response "ldap_user/username") (Some user) then
      if opt_str_eqb (findtext response "ldap_user/is_member") (Some "Yes")
      then ret true
      else ret result
    else ret result
  else if (len response >=? 2)%Z then
    raise (JSSGetError "Unexpected response.")
  else ret result.

End LDAP.

(** [LDAPServer.id] and [LDAPServer.name] *)
Definition LDAPServer_id (self : Object) : option string :=
  findtext (doc self) "connection/id".

Definition LDAPServer_name (self : Object) : option string :=
  findtext (doc self) "connection/name".

(** *** FileUpload *)

Record FileUpload : Type :=
  mkFileUpload { fu_jss : JSS;
                 resource_type : string;
                 id_type : string;
                 _id : string;
                 resource : string * string * option string;
                 _upload_url : string }.

Definition resource_types : list string :=
  ["computers"; "mobiledevices"; "enrollmentprofiles";
   "peripherals"; "policies"; "ebooks";
   "mobiledeviceapplicationsicon";
   "mobiledeviceapplicationsipa";
   "diskencryptionconfigurations"].

Definition id_types : list string := ["id"; "name"].

(** [FileUpload._set_upload_url]: the value it stores. *)
Definition _set_upload_url (j : JSS) (resource_type id_type _id : string)
  : string :=
  join "/" [_url j; "fileuploads"; resource_type; id_type; _id].

Section WithOutside.

Variable env : Outside.

(** [FileUpload.__init__] *)
Definition FileUpload_init (j : JSS) (resource_type id_type : string)
           (_id : PyId) (resource : string) : M FileUpload :=
  if str_in resource_type resource_types then
    if str_in id_type id_types then
      let _id := str _id in
      let basename := basename resource in
      let content_type := guess_type env basename in
      handle <- open_rb env resource ;;
      ret (mkFileUpload j resource_type id_type _id
                        (basename, handle, content_type)
                        (_set_upload_url j resource_type id_type _id))
    else
      raise (JSSFileUploadParameterError
               ("id_type must be one of: " ++ repr_list id_types))
  else
    raise (JSSFileUploadParameterError
             ("resource_type must be one of: " ++ repr_list resource_types)).

(** Modelled from the spec: [tools.error_handler] is not among the
    sources; a rejected request fails with the given exception class,
    surfacing status and body. *)
Definition error_handler {A : Type} (response : Response) : M A :=
  raise (JSSPostError (status_code response) (resp_text response)).

(** [FileUpload.save]. [error_handler] is a function of [tools.py], which
    is not among the sources; the method is read for any such function,
    called with [JSSPostError] and the response. *)
Definition save (tools_error_handler : Response -> M unit)
           (self : FileUpload) : M unit :=
  fun w =>
    let r := mkRequest POST (_upload_url self) (session_auth (fu_jss self))
                       (session_verify (fu_jss self))
                       (Some (fst (fst (resource self)))) in
    match send env r w with
    | (Raise (JSSPostError code b), w') =>
        if (code =? 409)%Z then (Raise (JSSPostError code b), w')
        else (Raise (JSSMethodNotAllowedError "FileUpload"), w')
    | (Raise e, w') => (Raise e, w')
    | (Ok response, w') =>
        if (status_code response =? 201)%Z then
          if verbose (fu_jss self) then
            (print "POST: Success" ;;; print (resp_text response)) w'
          else (Ok tt, w')
        else if (status_code response >=? 400)%Z then
          tools_error_handler response w'
        else (Ok tt, w')
    end.

End WithOutside.

(** *** Policy *)

Declare Scope build_scope.
Delimit Scope build_scope with build.
Notation "x <~ m ;; k" := (bbind m (fun x => k))
  (at level 61, m at next level, right associativity) : build_scope.
Notation "m ~;; k" := (bbind m (fun _ => k))
  (at level 61, right associativity) : build_scope.

(** Modelled from the spec: [set_bool] is a method of [jssobject.py],
    which is not among the sources; it serializes the flag as the
    literal ["true"] or ["false"]. *)
Definition set_bool (h : Handle) (value : bool) : Build unit :=
  assign_text h (Some (if value then "true" else "false")).

(** The [category] argument of [Policy.new]: a [Category] object or a
    string. *)
Inductive CategoryArg : Type :=
| CategoryObject (c : Object)
| CategoryName (s : string).

(** [if category:]: [None] and the empty string are false; an object is
    an [Element], false when it has no children. *)
Definition category_truthy (category : option CategoryArg) : bool :=
  match category with
  | None => false
  | Some (CategoryName s) => str_truthy s
  | Some (CategoryObject c) =>
      match children (doc c) with [] => false | _ :: _ => true end
  end.

(** Modelled from the spec: the [name] property of the base class is not
    among the sources; it reads the conventional path ["name"]. *)
Definition object_name (o : Object) : option string :=
  findtext (doc o) "name".

(** [Policy.new], on [self] as the document under construction. *)
Definition new (name : string) (category : option CategoryArg) : Build unit :=
  ( (* General *)
    general <~ SubElement [] "general" ;;
    name_element <~ SubElement general "name" ;;
    assign_text name_element (Some name) ~;;
    enabled <~ SubElement general "enabled" ;;
    set_bool enabled true ~;;
    frequency <~ SubElement general "frequency" ;;
    assign_text frequency (Some "Once per computer") ~;;
    category_h <~ SubElement general "category" ;;
    (if category_truthy category then
       category_name <~ SubElement category_h "name" ;;
       match category with
       | Some (CategoryObject c) =>
           if isinstance c Category
           then assign_text category_name (object_name c)
           else bret tt
       | Some (CategoryName s) => assign_text category_name (Some s)
       | None => bret tt
       end
     else bret tt) ~;;
    (* Scope *)
    scope <~ SubElement [] "scope" ;;
    computers <~ SubElement scope "computers" ;;
    computer_groups <~ SubElement scope "computer_groups" ;;
    buildings <~ SubElement scope "buldings" ;;
    departments <~ SubElement scope "departments" ;;
    exclusions <~ SubElement scope "exclusions" ;;
    excluded_computers <~ SubElement exclusions "computers" ;;
    excluded_computer_groups <~ SubElement exclusions "computer_groups" ;;
    excluded_buildings <~ SubElement exclusions "buildings" ;;
    excluded_departments <~ SubElement exclusions "departments" ;;
    (* Self Service *)
    self_service <~ SubElement [] "self_service" ;;
    use_for_self_service <~ SubElement self_service "use_for_self_service" ;;
    set_bool use_for_self_service true ~;;
    (* Package Configuration *)
    pkg_config <~ SubElement [] "package_configuration" ;;
    pkgs <~ SubElement pkg_config "packages" ;;
    (* Maintenance *)
    maintenance <~ SubElement [] "maintenance" ;;
    recon <~ SubElement maintenance "recon" ;;
    set_bool recon true )%build.

Section Scope.

(** [add_object_to_path] is a method of [jssobject.py], which is not
    among the sources; the scope methods are read for any such
    method. *)
Variable add_object_to_path : Object -> string -> Build Handle.

(** [Policy.add_object_to_scope] *)
Definition add_object_to_scope (obj : Object) (self : Element)
  : Outcome Handle * Element :=
  if isinstance obj Computer then
    let (h, d) := add_object_to_path obj "scope/computers" self in (Ok h, d)
  else if isinstance obj ComputerGroup then
    let (h, d) := add_object_to_path obj "scope/computer_groups" self in (Ok h, d)
  else if isinstance obj Building then
    let (h, d) := add_object_to_path obj "scope/buildings" self in (Ok h, d)
  else if isinstance obj Department then
    let (h, d) := add_object_to_path obj "scope/departments" self in (Ok h, d)
  else (Raise TypeError, self).

(** [Policy.add_object_to_exclusions] *)
Definition add_object_to_exclusions (obj : Object) (self : Element)
  : Outcome Handle * Element :=
  if isinstance obj Computer then
    let (h, d) := add_object_to_path obj "scope/exclusions/computers" self in (Ok h, d)
  else if isinstance obj ComputerGroup then
    let (h, d) := add_object_to_path obj "scope/exclusions/computer_groups" self in (Ok h, d)
  else if isinstance obj Building then
    let (h, d) := add_object_to_path obj "scope/exclusions/buildings" self in (Ok h, d)
  else if isinstance obj Department then
    let (h, d) := add_object_to_path obj "scope/exclusions/departments" self in (Ok h, d)
  else (Raise TypeError, self).

End Scope.

(** A [for] loop whose body edits the document in place and may raise: the
    loop stops at the first exception and the edits made so far stay. *)
Fixpoint for_each {A : Type} (body : A -> Element -> Outcome unit * Element)
         (l : list A) (self : Element) : Outcome unit * Element :=
  match l with
  | [] => (Ok tt, self)
  | x :: rest =>
      match body x self with
      | (Ok _, d) => for_each body rest d
      | (Raise e, d) => (Raise e, d)
      end
  end.

(** The local list [clear_list] of [Policy.clear_scope]. *)
Definition clear_scope_sections : list string :=
  ["computers"; "computer_groups"; "buildings";
   "departments"; "limit_to_users/user_groups";
   "limitations/users"; "limitations/user_groups";
   "limitations/network_segments"; "exclusions/computers";
   "exclusions/computer_groups"; "exclusions/buildings";
   "exclusions/departments"; "exclusions/users";
   "exclusions/user_groups"; "exclusions/network_segments"].

(** The paths [Policy.clear_scope] hands to [clear_list]. *)
Definition clear_scope_paths : list string :=
  map (fun section => "scope/" ++ section) clear_scope_sections.

Section ClearScope.

(** [self.clear_list] is a method of [jssobject.py], which is not among
    the sources; [clear_scope] is read for any such method. *)
Variable self_clear_list : string -> Element -> Outcome unit * Element.

(** [Policy.clear_scope] *)
Definition clear_scope (self : Element) : Outcome unit * Element :=
  for_each (fun section => self_clear_list ("scope/" ++ section))
           clear_scope_sections self.

End ClearScope.


(** *** The capability check of the dispatcher *)

Inductive Operation : Type :=
| OpGet | OpList | OpCreate | OpUpdate | OpDelete.

Definition flag_of (op : Operation) : string :=
  match op with
  | OpGet => "can_get"
  | OpList => "can_list"
  | OpCreate => "can_post"
  | OpUpdate => "can_put"
  | OpDelete => "can_delete"
  end.

Definition verb_of (op : Operation) : Verb :=
  match op with
  | OpGet | OpList => GET
  | OpCreate => POST
  | OpUpdate => PUT
  | OpDelete => DELETE
  end.

(** Modelled from the spec: the get/list/create/update/delete methods
    are in [jssobject.py] and [jss.py] of the package, which are not
    among the sources. The dispatcher consults the capability flag of the
    type before issuing a request and fails with a method-not-allowed
    error when the operation is disabled; otherwise it executes the verb
    at the resolved address and maps 401, 404 and any other status from
    400 on to the typed failures. *)
Definition dispatch (env : Outside) (j : JSS) (op : Operation)
           (c : ResourceClass) (address : string) (data : option string)
  : M Response :=
  if can c (flag_of op) then
    response <- send env (mkRequest (verb_of op) (_url j ++ address)
                                    (session_auth j) (session_verify j) data) ;;
    if (status_code response =? 401)%Z then
      raise (JSSAuthenticationError "Authentication error")
    else if (status_code response =? 404)%Z then
      raise (JSSGetError "Not found")
    else if (status_code response >=? 400)%Z then
      error_handler response
    else ret response
  else raise (JSSMethodNotAllowedError (class_name (class_def c))).

End JssObjects.

(* ------------------------------------------------------------------ *)
(** ** Vocabulary of the statements *)

(** The world after one more request. *)
Definition after (w : World) (r : Request) : World :=
  mkWorld (sent w ++ [r])%list (stdout w) (opened w).

Definition get_req (self : Jss.JSS) (url : string) : Request :=
  mkRequest GET url (Jss.user self, Jss.password self) (Jss.ssl_verify self)
            None.

(** The objects [list] builds from a parsed answer. *)
Definition listed (c : Jss.ObjClass) (self : Jss.JSS) (xmldata : Element)
  : list Jss.Object :=
  map (fun item => Jss.mkObject c self (Jss.XElement item))
      (filter (fun item => negb (String.eqb (tag item) "size"))
              (children xmldata)).

(** [p] is a prefix of [q], step by step. *)
Fixpoint prefixb (p q : list string) : bool :=
  match p, q with
  | [], _ => true
  | _ :: _, [] => false
  | t :: p', u :: q' => String.eqb t u && prefixb p' q'
  end.

(** Neither path leads through the element the other one names. *)
Definition apart (p q : list string) : bool :=
  negb (prefixb p q) && negb (prefixb q p).


(** An empty world: nothing sent, printed or opened yet. *)
Definition fresh_world : World := mkWorld [] [] [].

(** A service that answers every request with one fixed response, and a
    parser that knows one document. *)
Definition fixed_outside (response : Response) (known : string)
           (document : Element) : Outside :=
  mkOutside (fun _ _ => Ok response)
            (fun data => if String.eqb data known then Some document else None)
            (fun _ => false)
            (fun _ => None)
            9223372036854775807.

(** A leaf element with a text. *)
Definition leaf (t s : string) : Element := mkElement t [] (Some s) None [].

(** An element with children only. *)
Definition node (t : string) (cs : list Element) : Element :=
  mkElement t [] None None cs.

(** A service that answers 500 with a well-formed XML body. *)
Definition outside_500 : Outside :=
  fixed_outside (mkResponse 500 "<error/>") "<error/>" (new_element "error").

Definition sample_jss : Jss.JSS :=
  Jss.JSS_init None (Some "https://jss.example.org:8443") (Some "api")
               (Some "secret") true.

(** A service that answers 200 with a list of two computers. *)
Definition computers_document : Element :=
  node "computers"
       [leaf "size" "2";
        node "computer" [leaf "id" "1"; leaf "name" "alpha"];
        node "computer" [leaf "id" "2"; leaf "name" "beta"]].

Definition outside_computers : Outside :=
  fixed_outside (mkResponse 200 "<computers/>") "<computers/>"
                computers_document.

(** Samples of the package. *)
Definition sample_connection : JssObjects.JSS :=
  JssObjects.mkJSS "https://jss.example.org:8443/JSSResource"
                   (Some "api", Some "secret") true false.

Definition sample_ldap_server : JssObjects.Object :=
  JssObjects.mkObject JssObjects.LDAPServer sample_connection
    (node "ldap_server" [node "connection" [leaf "id" "1"; leaf "name" "AD"]]).

(** The answer to a membership query that confirms user [jdoe]. *)
Definition membership_confirmed : Element :=
  node "ldap_users"
       [leaf "size" "1";
        node "ldap_user" [leaf "username" "jdoe"; leaf "is_member" "Yes"]].

(** A computer record with a secondary address only. *)
Definition computer_alt_only : JssObjects.Object :=
  JssObjects.mkObject JssObjects.Computer sample_connection
    (node "computer" [node "general" [leaf "alt_mac_address" "AA:BB:CC:DD:EE:FF"]]).

(** A computer record with a primary address only. *)
Definition computer_primary_only : JssObjects.Object :=
  JssObjects.mkObject JssObjects.Computer sample_connection
    (node "computer" [node "general" [leaf "mac_address" "00:11:22:33:44:55"]]).

(** A mobile device record without a Bluetooth address. *)
Definition device_without_bluetooth : JssObjects.Object :=
  JssObjects.mkObject JssObjects.MobileDevice sample_connection
    (node "mobile_device"
          [node "general" [leaf "mac_address" "00:11:22:33:44:55"]]).

(** A mobile device record with no address at all. *)
Definition device_without_addresses : JssObjects.Object :=
  JssObjects.mkObject JssObjects.MobileDevice sample_connection
    (node "mobile_device" [node "general" []]).


(** A building to put in scope. *)
Definition sample_building : JssObjects.Object :=
  JssObjects.mkObject JssObjects.Building sample_connection
    (node "building" [leaf "id" "3"; leaf "name" "Library"]).

(** A policy record as the service returns it, with two filled lists. *)
Definition scoped_policy : Element :=
  node "policy"
       [node "general" [leaf "id" "9"; leaf "name" "Install"];
        node "scope"
             [node "computers"
                   [node "computer" [leaf "id" "1"; leaf "name" "alpha"]];
              node "buildings"
                   [node "building" [leaf "id" "3"; leaf "name" "Library"]];
              node "exclusions"
                   [node "computers"
                         [node "computer" [leaf "id" "2"; leaf "name" "beta"]]]]].


(* ------------------------------------------------------------------ *)
(** ** [src/jss.py]: preferences and pretty printing *)

Module JssTools.

(** A property list as [FoundationPlist.readPlist] returns it: a
    dictionary (of string values here) or some other root object. *)
Inductive Plist : Type :=
| PDict (d : list (string * string))
| POther.

(** [d.get(k)] *)
Fixpoint dict_get (k : string) (d : list (string * string)) : option string :=
  match d with
  | [] => None
  | (k', v) :: rest => if String.eqb k k' then Some v else dict_get k rest
  end.

Section Prefs.

(** [os.path.expanduser] and [FoundationPlist.readPlist] ([None] when it
    raises). *)
Variable expanduser : string -> string.
Variable readPlist : string -> option Plist.

(** [JSSPrefs.__init__]: the bare [except] turns every failure of the
    [try] block into [JSSPrefsMissingKeyError]; [get] on a root that is
    not a dictionary is such a failure. *)
Definition JSSPrefs_init (preferences_file : option string)
  : Outcome Jss.JSSPrefs :=
  let preferences_file :=
    match preferences_file with
    | None =>
        let path := "~/Library/Preferences/org.da.jss_helper.plist" in
        expanduser path
    | Some f => f
    end in
  match readPlist (expanduser preferences_file) with
  | Some (PDict prefs) =>
      Ok (Jss.mkJSSPrefs (dict_get "jss_user" prefs)
                         (dict_get "jss_pass" prefs)
                         (dict_get "jss_url" prefs))
  | Some POther | None =>
      Raise (JSSPrefsMissingKeyError
               "Please provide all required preferences!")
  end.

End Prefs.

(** The line feed. *)
Definition newline : string := String (ascii_of_nat 10) EmptyString.

Definition pad : string := "    ".

(** [n * s] *)
Fixpoint repeat_str (s : string) (n : nat) : string :=
  match n with
  | O => ""
  | S k => s ++ repeat_str s k
  end.

(** A loop over the items of a list with a running [count]. *)
Definition mapi {A B : Type} (f : nat -> A -> B) : nat -> list A -> list B :=
  fix go (count : nat) (l : list A) : list B :=
    match l with
    | [] => []
    | x :: rest => f count x :: go (S count) rest
    end.

Section Indent.

(** [not s.strip()]: the text is nothing but white space. What counts as
    white space depends on the kind of the text ([str] or [unicode]); the
    method is read for any such test. *)
Variable blank : string -> bool.

(** [not t or not t.strip()] *)
Definition empty_or_blank (t : option string) : bool :=
  match t with
  | None => true
  | Some s => blank s
  end.

(** [JSSObject.indent]: the element after the in-place edit of its
    [text], its [tail] and its children. *)
Fixpoint indent (elem : Element) (level : nat) (more_sibs : bool)
         {struct elem} : Element :=
  match elem with
  | mkElement tg att tx tl kids =>
      let i := newline ++ repeat_str pad (level - 1) in
      let num_kids := length kids in
      let new_tail := Some (i ++ (if more_sibs then pad else "")) in
      match kids with
      | _ :: _ =>
          let tx' :=
            if empty_or_blank tx
            then Some (i ++ pad ++ (match level with O => "" | S _ => pad end))
            else tx in
          let kids' :=
            mapi (fun count kid =>
                    indent kid (level + 1) (Nat.ltb count (num_kids - 1)))
                 0 kids in
          let tl' := if empty_or_blank tl then new_tail else tl in
          mkElement tg att tx' tl' kids'
      | [] =>
          if (match level with O => false | S _ => true end)
             && empty_or_blank tl
          then mkElement tg att tx new_tail []
          else elem
      end
  end.

End Indent.

End JssTools.

(* ------------------------------------------------------------------ *)
(** ** [src/jss/jssobjects.py]: packages and policy edits *)

Module JssEdits.

Import JssObjects.

(** [self.find(path).text = value]: an [AttributeError] when the path
    names no element. *)
Definition assign_found_text (path : string) (value : option string)
           (self : Element) : Outcome unit * Element :=
  match find self path with
  | Some _ =>
      (Ok tt, update_steps (steps path) (fun e => set_text e value) self)
  | None => (Raise AttributeError, self)
  end.

(** [Package.new]; [cat_name] is [kwargs.get("cat_name")]. *)
Definition Package_new (filename : string) (cat_name : option string)
  : Build unit :=
  ( name <~ SubElement [] "name" ;;
    assign_text name (Some filename) ~;;
    category <~ SubElement [] "category" ;;
    assign_text category cat_name ~;;
    fname <~ SubElement [] "filename" ;;
    assign_text fname (Some filename) ~;;
    SubElement [] "info" ~;;
    SubElement [] "notes" ~;;
    priority <~ SubElement [] "priority" ;;
    assign_text priority (Some "10") ~;;
    reboot <~ SubElement [] "reboot_required" ;;
    assign_text reboot (Some "false") ~;;
    fut <~ SubElement [] "fill_user_template" ;;
    assign_text fut (Some "false") ~;;
    feu <~ SubElement [] "fill_existing_users" ;;
    assign_text feu (Some "false") ~;;
    boot_volume <~ SubElement [] "boot_volume_required" ;;
    assign_text boot_volume (Some "true") ~;;
    allow_uninstalled <~ SubElement [] "allow_uninstalled" ;;
    assign_text allow_uninstalled (Some "false") ~;;
    SubElement [] "os_requirements" ~;;
    required_proc <~ SubElement [] "required_processor" ;;
    assign_text required_proc (Some "None") ~;;
    switch_w_package <~ SubElement [] "switch_with_package" ;;
    assign_text switch_w_package (Some "Do Not Install") ~;;
    install_if <~ SubElement [] "install_if_reported_available" ;;
    assign_text install_if (Some "false") ~;;
    reinstall_option <~ SubElement [] "reinstall_option" ;;
    assign_text reinstall_option (Some "Do Not Reinstall") ~;;
    SubElement [] "triggering_files" ~;;
    send_notification <~ SubElement [] "send_notification" ;;
    assign_text send_notification (Some "false") )%build.

(** [Package.set_os_requirements] *)
Definition set_os_requirements (requirements : string) (self : Element)
  : Outcome unit * Element :=
  assign_found_text "os_requirements" (Some requirements) self.

(** Modelled from the spec: the [id] property of the base class is not
    among the sources; it reads the conventional path ["id"]. *)
Definition object_id (o : Object) : option string :=
  findtext (doc o) "id".

(** [Element.clear()] followed by the children [Policy.set_category]
    appends to the cleared category element. *)
Definition recategorize (category : CategoryArg) (pcategory : Element)
  : Element :=
  let cleared := mkElement (tag pcategory) [] None None [] in
  let name := new_element "name" in
  match category with
  | CategoryObject c =>
      if isinstance c Category then
        let id_ := new_element "id" in
        set_children cleared [set_text name (object_name c);
                              set_text id_ (object_id c)]
      else set_children cleared [name]
  | CategoryName s =>
      set_children cleared [set_text name (Some s)]
  end.

(** [Policy.set_category] *)
Definition set_category (category : CategoryArg) (self : Element)
  : Outcome unit * Element :=
  match find self "general/category" with
  | Some _ =>
      (Ok tt,
       update_steps (steps "general/category") (recategorize category) self)
  | None => (Raise AttributeError, self)
  end.

Section Packages.

(** [add_object_to_path], as for the scope methods. *)
Variable add_object_to_path : Object -> string -> Build Handle.

(** [Policy.add_package] *)
Definition add_package (pkg : Object) : Build unit :=
  if isinstance pkg Package then
    ( package <~ add_object_to_path pkg "package_configuration/packages" ;;
      action <~ SubElement package "action" ;;
      assign_text action (Some "Install") )%build
  else bret tt.

End Packages.

End JssEdits.

(* ------------------------------------------------------------------ *)
(** ** Vocabulary of the further statements *)

(** Whether [JSSObject.__init__] fetches for the id an accessor was
    handed. *)
Definition fetched (env : Outside) (id_ : option PyId) : bool :=
  match id_ with
  | Some i => Jss.int_or_str env i
  | None => true
  end.

(** The world in which [get] sends its request: the URL has been printed
    when an id was given. *)
Definition announced (w : World) (self : Jss.JSS) (c : Jss.ObjClass)
           (id_ : option PyId) : World :=
  match id_ with
  | Some _ =>
      mkWorld (sent w) (stdout w ++ [Jss.get_url self c id_])%list (opened w)
  | None => w
  end.

(** A text made of line feeds and spaces only. *)
Fixpoint spaces_only (s : string) : bool :=
  match s with
  | EmptyString => true
  | String c rest =>
      (Nat.eqb (nat_of_ascii c) 10 || Nat.eqb (nat_of_ascii c) 32)
      && spaces_only rest
  end.

(** The white-space test of a [str] of ASCII text: tab to carriage
    return, and the space. *)
Fixpoint ascii_blank (s : string) : bool :=
  match s with
  | EmptyString => true
  | String c rest =>
      (Nat.eqb (nat_of_ascii c) 32
       || (Nat.leb 9 (nat_of_ascii c) && Nat.leb (nat_of_ascii c) 13))
      && ascii_blank rest
  end.

(** White space that carries no content: [None] stands for it. *)
Definition keep_ink (blank : string -> bool) (t : option string)
  : option string :=
  if JssTools.empty_or_blank blank t then None else t.

(** The document with every white-space-only [text] and [tail] erased. *)
Fixpoint unlayout (blank : string -> bool) (e : Element) : Element :=
  match e with
  | mkElement tg att tx tl kids =>
      mkElement tg att (keep_ink blank tx) (keep_ink blank tl)
                (map (unlayout blank) kids)
  end.

(** A document with a text, white space and nested children. *)
Definition sample_document : Element :=
  mkElement "computer" [] None None
            [mkElement "general" [] (Some "  ") None
                       [leaf "name" "alpha"; leaf "id" "1"];
             mkElement "notes" [] (Some "kept as it is") None []].

(** Induction on a document, with the property known for all children. *)
Fixpoint Element_induction (P : Element -> Prop)
         (step : forall tg att tx tl kids,
             Forall P kids -> P (mkElement tg att tx tl kids))
         (e : Element) {struct e} : P e :=
  match e with
  | mkElement tg att tx tl kids =>
      step tg att tx tl kids
           ((fix all (l : list Element) : Forall P l :=
               match l with
               | [] => Forall_nil P
               | k :: rest =>
                   Forall_cons k (Element_induction P step k) (all rest)
               end) kids)
  end.

(** A preference file with a user and a password but no URL. *)
Definition prefs_without_url : JssTools.Plist :=
  JssTools.PDict [("jss_user", "api"); ("jss_pass", "secret")].

(** What [indent] starts a line with at a level. *)
Definition margin (level : nat) : string :=
  JssTools.newline ++ JssTools.repeat_str JssTools.pad (level - 1).

(** The request [FileUpload.save] posts. *)
Definition upload_req (fu : JssObjects.FileUpload) : Request :=
  mkRequest POST (JssObjects._upload_url fu)
            (JssObjects.session_auth (JssObjects.fu_jss fu))
            (JssObjects.session_verify (JssObjects.fu_jss fu))
            (Some (fst (fst (JssObjects.resource fu)))).

(** The world after a file was opened. *)
Definition after_open (w : World) (path : string) : World :=
  mkWorld (sent w) (stdout w) (opened w ++ [path])%list.

(** An outside where one file exists and the service answers 200. *)
Definition outside_upload : Outside :=
  mkOutside (fun _ _ => Ok (mkResponse 200 "ok"))
            (fun _ => None)
            (fun path => String.eqb path "/tmp/icon.png")
            (fun _ => Some "image/png")
            9223372036854775807.

Definition sample_upload : JssObjects.FileUpload :=
  JssObjects.mkFileUpload
    sample_connection "policies" "id" "7"
    ("icon.png", "/tmp/icon.png", Some "image/png")
    "https://jss.example.org:8443/JSSResource/fileuploads/policies/id/7".


(* ------------------------------------------------------------------ *)
(** * Properties *)

(** ** Generic facts about the helpers *)

Lemma bind_ok {A B : Type} (m : M A) (k : A -> M B) (w w' : World) (a : A) :
  m w = (Ok a, w') -> bind m k w = k a w'.
Proof. intros H. unfold bind. now rewrite H. Qed.

Lemma bind_raise {A B : Type} (m : M A) (k : A -> M B) (w w' : World)
      (e : Exception) :
  m w = (Raise e, w') -> bind m k w = (Raise e, w').
Proof. intros H. unfold bind. now rewrite H. Qed.

Lemma mapM_pure {A B : Type} (f : A -> M B) (g : A -> B) (xs : list A)
      (w : World) :
  (forall x w0, f x w0 = (Ok (g x), w0)) ->
  mapM f xs w = (Ok (map g xs), w).
Proof.
  intros Hf. induction xs as [|x rest IH]; simpl.
  - reflexivity.
  - rewrite (bind_ok _ _ _ _ _ (Hf x w)).
    rewrite (bind_ok _ _ _ _ _ IH). reflexivity.
Qed.

Lemma str_in_true (x : string) (xs : list string) :
  str_in x xs = true <-> In x xs.
Proof.
  unfold str_in. rewrite existsb_exists. split.
  - intros [y [Hin Heq]]. apply String.eqb_eq in Heq. now subst.
  - intros Hin. exists x. split; [assumption | apply String.eqb_refl].
Qed.

Lemma str_in_false (x : string) (xs : list string) :
  str_in x xs = false <-> ~ In x xs.
Proof.
  rewrite <- str_in_true. destruct (str_in x xs); split; intros H;
    try reflexivity; try discriminate; try (intros H'; discriminate).
  exfalso. now apply H.
Qed.

(** ** [src/jss.py] *)

Section JssFacts.

Variable env : Outside.

(** What [get_request] does with an answered request, status by status. *)
Lemma get_request_answered (self : Jss.JSS) (url : string) (w : World)
      (response : Response) :
  http env (sent w) (get_req self url) = Ok response ->
  Jss.get_request env self url w =
    ((if (status_code response =? 401)%Z then
        Raise (JSSAuthenticationError
                 "Authentication error: check the api username and password")
      else if (status_code response =? 404)%Z then
        Raise (JSSGetError ("Object " ++ url ++ " does not exist!"))
      else match fromstring env (resp_text response) with
           | Some x => Ok x
           | None => Raise ParseError
           end),
     after w (get_req self url)).
Proof.
  intros Hhttp. unfold Jss.get_request, bind, send.
  fold (get_req self url). rewrite Hhttp. fold (after w (get_req self url)).
  destruct (status_code response =? 401)%Z; [reflexivity|].
  destruct (status_code response =? 404)%Z; [reflexivity|].
  unfold parse. destruct (fromstring env (resp_text response)); reflexivity.
Qed.

(** [get_request] sends exactly one request, whatever the answer. *)
Lemma get_request_sends (self : Jss.JSS) (url : string) (w : World) :
  snd (Jss.get_request env self url w) = after w (get_req self url).
Proof.
  unfold Jss.get_request, bind, send. fold (get_req self url).
  fold (after w (get_req self url)).
  destruct (http env (sent w) (get_req self url)) as [response|e];
    [|reflexivity].
  destruct (status_code response =? 401)%Z; [reflexivity|].
  destruct (status_code response =? 404)%Z; [reflexivity|].
  unfold parse. destruct (fromstring env (resp_text response)); reflexivity.
Qed.

Lemma list_unfold (self : Jss.JSS) (c : Jss.ObjClass) (w : World) :
  Jss.list env self c w =
    match Jss.get_request env self (Jss._url self ++ fmt_s (Jss.class_url c)) w with
    | (Ok xmldata, w') => (Ok (listed c self xmldata), w')
    | (Raise e, w') => (Raise e, w')
    end.
Proof.
  unfold Jss.list, bind at 1.
  destruct (Jss.get_request env self _ w) as [[xmldata|e] w']; [|reflexivity].
  apply mapM_pure. intros x w0. reflexivity.
Qed.

End JssFacts.


(** *** Address resolution *)

(** C7: for the policies class and key 42, [JSS.get] resolves the address
    [{base}/policies/id/42], where [{base}] is the [_url] of the
    connection, and that is the URL of the one request it sends. The
    address is a function of class and key alone: whatever was sent or
    printed before, and whatever the service answers, the same class and
    key are requested at the same URL, so a second call repeats the URL
    of the first. *)
Theorem C7_policy_address (env : Outside) (self : Jss.JSS) (w : World) :
  Jss.get_url self Jss.Policy (Some (PyInt 42))
  = Jss._url self ++ "/policies/id/42"
  /\ (let w1 := snd (Jss.get env self Jss.Policy (Some (PyInt 42)) w) in
      let w2 := snd (Jss.get env self Jss.Policy (Some (PyInt 42)) w1) in
      let address := Jss._url self ++ "/policies/id/42" in
      map req_url (sent w2)
      = (map req_url (sent w) ++ [address; address])%list)
  /\ (forall (c : Jss.ObjClass) (k : option PyId) (env' : Outside) (w' : World),
         map req_url (sent (snd (Jss.get env' self c k w')))
         = (map req_url (sent w') ++ [Jss.get_url self c k])%list).
Proof.
  assert (Hgen : forall (c : Jss.ObjClass) (k : option PyId) (env' : Outside)
                        (w' : World),
             map req_url (sent (snd (Jss.get env' self c k w')))
             = (map req_url (sent w') ++ [Jss.get_url self c k])%list).
  { intros c k env' w'. unfold Jss.get.
    destruct k as [i|].
    - unfold bind at 1, print. cbn iota beta.
      rewrite get_request_sends. cbn. now rewrite map_app.
    - rewrite get_request_sends. cbn. now rewrite map_app. }
  split; [reflexivity|]. split; [|exact Hgen].
  cbn zeta. rewrite !Hgen, <- app_assoc. reflexivity.
Qed.

(** *** Status codes *)

(** C2, as stated, fails: on a 500 answer whose body is well-formed XML,
    [get_request] raises nothing at all and returns the parsed body. *)
Lemma C2_counterexample :
  (400 <= 500)%Z /\ 500%Z <> 401%Z /\ 500%Z <> 404%Z
  /\ http outside_500 (sent fresh_world)
          (get_req sample_jss "https://jss.example.org:8443/JSSResource/computers")
     = Ok (mkResponse 500 "<error/>")
  /\ fst (Jss.get_request outside_500 sample_jss
            "https://jss.example.org:8443/JSSResource/computers" fresh_world)
     = Ok (new_element "error")
  /\ ~ (exists e : Exception,
           fst (Jss.get_request outside_500 sample_jss
                  "https://jss.example.org:8443/JSSResource/computers"
                  fresh_world)
           = Raise e).
Proof.
  repeat split; try lia; try reflexivity.
  intros [e He]. vm_compute in He. discriminate He.
Qed.

(** C2, amended: [get_request] checks the status for 401 and 404 only. A
    response with any other status code, 400 and above included, is not an
    error to it: the body is handed to the XML parser, the parsed document
    is returned, and the only failure left is the parser's own, which
    carries neither status code nor body. *)
Theorem C2_other_status_is_parsed (env : Outside) (self : Jss.JSS)
        (url : string) (w : World) (response : Response) :
  http env (sent w) (get_req self url) = Ok response ->
  status_code response <> 401%Z ->
  status_code response <> 404%Z ->
  Jss.get_request env self url w
  = (match fromstring env (resp_text response) with
     | Some document => Ok document
     | None => Raise ParseError
     end,
     after w (get_req self url)).
Proof.
  intros Hhttp H401 H404.
  rewrite (get_request_answered env self url w response Hhttp).
  apply Z.eqb_neq in H401, H404. now rewrite H401, H404.
Qed.

Lemma C2_other_status_is_parsed_witness :
  Jss.get_request outside_500 sample_jss "u" fresh_world
  = (Ok (new_element "error"), after fresh_world (get_req sample_jss "u")).
Proof.
  apply (C2_other_status_is_parsed outside_500 sample_jss "u" fresh_world
           (mkResponse 500 "<error/>")).
  - reflexivity.
  - simpl. lia.
  - simpl. lia.
Defined.

(** *** Listing *)

(** C5: whatever the class and whatever the service answers, the objects
    [JSS.list] returns are built from the children of the answer whose tag
    is not ["size"], in order; none of them has the tag ["size"]. *)
Theorem C5_list_leaves_size_out (env : Outside) (self : Jss.JSS)
        (c : Jss.ObjClass) (w w' : World) (lst : list Jss.Object) :
  Jss.list env self c w = (Ok lst, w') ->
  Forall (fun o => exists item : Element,
              Jss.xml o = Jss.XElement item /\ tag item <> "size") lst
  /\ exists xmldata : Element,
      Jss.get_request env self (Jss._url self ++ fmt_s (Jss.class_url c)) w
      = (Ok xmldata, w')
      /\ lst = listed c self xmldata.
Proof.
  rewrite list_unfold.
  destruct (Jss.get_request env self _ w) as [[xmldata|e] w1] eqn:Hget;
    intros H; [|discriminate H].
  injection H as Hl Hw. subst lst w1. split.
  - unfold listed. apply Forall_forall. intros o Hin.
    apply in_map_iff in Hin. destruct Hin as [item [Ho Hin]]. subst o.
    apply filter_In in Hin. destruct Hin as [_ Hneq].
    exists item. split; [reflexivity|].
    apply negb_true_iff in Hneq. now apply String.eqb_neq in Hneq.
  - exists xmldata. split; reflexivity.
Qed.

Lemma C5_list_leaves_size_out_witness :
  Forall (fun o => exists item : Element,
              Jss.xml o = Jss.XElement item /\ tag item <> "size")
         (listed Jss.Computer sample_jss computers_document)
  /\ length (listed Jss.Computer sample_jss computers_document) = 2%nat.
Proof.
  split; [|reflexivity].
  apply (C5_list_leaves_size_out outside_computers sample_jss Jss.Computer
           fresh_world
           (after fresh_world
                  (get_req sample_jss
                           "https://jss.example.org:8443/JSSResource/computers"))).
  reflexivity.
Defined.

(** ** [src/jss/jssobjects.py] *)

(** *** LDAPServer *)

(** C1: once the service has answered a membership query,
    [is_user_in_group] returns false when the answer has exactly one
    child; returns true exactly when the answer has two children, the text
    at [ldap_user/username] is the queried user and the text at
    [ldap_user/is_member] is ["Yes"]; and raises the error
    ["Unexpected response."] whenever the answer has three or more
    children. The request log is what the query left. *)
Theorem C1_is_user_in_group
        (jss_get : JssObjects.JSS -> string -> M Element)
        (url : JssObjects.Object -> string)
        (self : JssObjects.Object) (user group : string)
        (w w' : World) (response : Element) :
  jss_get (JssObjects.jss self)
          (url self ++ "/group/" ++ group ++ "/user/" ++ user) w
  = (Ok response, w') ->
  (len response = 1%Z ->
   JssObjects.is_user_in_group jss_get url self user group w = (Ok false, w'))
  /\ (JssObjects.is_user_in_group jss_get url self user group w = (Ok true, w')
      <-> len response = 2%Z
          /\ findtext response "ldap_user/username" = Some user
          /\ findtext response "ldap_user/is_member" = Some "Yes")
  /\ ((3 <= len response)%Z ->
      JssObjects.is_user_in_group jss_get url self user group w
      = (Raise (JSSGetError "Unexpected response."), w')).
Proof.
  intros Hget.
  assert (Heqb : forall a b, JssObjects.opt_str_eqb a (Some b) = true
                             <-> a = Some b).
  { intros [a|] b; simpl; split; intros H; try discriminate H.
    - apply String.eqb_eq in H. now subst.
    - injection H as ->. apply String.eqb_refl. }
  unfold JssObjects.is_user_in_group.
  change (url self ++ "/" ++ "group" ++ "/" ++ group ++ "/" ++ "user" ++ "/" ++ user)
    with (url self ++ "/group/" ++ group ++ "/user/" ++ user).
  rewrite (bind_ok _ _ _ _ _ Hget).
  destruct (len response =? 1)%Z eqn:H1;
    [apply Z.eqb_eq in H1 | apply Z.eqb_neq in H1].
  { split; [reflexivity|]. split; [|intros; lia].
    split; [intros H; discriminate H | intros [Hlen _]; lia]. }
  destruct (len response =? 2)%Z eqn:H2;
    [apply Z.eqb_eq in H2 | apply Z.eqb_neq in H2].
  { split; [intros; lia|]. split; [|intros; lia].
    destruct (JssObjects.opt_str_eqb (findtext response "ldap_user/username")
                                     (Some user)) eqn:Hu.
    - destruct (JssObjects.opt_str_eqb
                  (findtext response "ldap_user/is_member") (Some "Yes")) eqn:Hm.
      + apply Heqb in Hu, Hm. split; [intros _; now repeat split | reflexivity].
      + split; [intros H; discriminate H|].
        intros [_ [_ Hyes]]. apply Heqb in Hyes. congruence.
    - split; [intros H; discriminate H|].
      intros [_ [Hname _]]. apply Heqb in Hname. congruence. }
  destruct (len response >=? 2)%Z eqn:H3.
  - split; [intros; lia|]. split; [|reflexivity].
    split; [intros H; discriminate H | intros [Hlen _]; lia].
  - rewrite Z.geb_leb in H3. apply Z.leb_gt in H3.
    split; [intros; lia|]. split; [|intros; lia].
    split; [intros H; discriminate H | intros [Hlen _]; lia].
Qed.

Lemma C1_is_user_in_group_witness :
  JssObjects.is_user_in_group (fun _ _ => ret membership_confirmed)
                              (fun _ => "/ldapservers/id/1")
                              sample_ldap_server "jdoe" "staff" fresh_world
  = (Ok true, fresh_world).
Proof.
  apply (C1_is_user_in_group (fun _ _ => ret membership_confirmed)
                             (fun _ => "/ldapservers/id/1")
                             sample_ldap_server "jdoe" "staff"
                             fresh_world fresh_world membership_confirmed
                             eq_refl).
  repeat split.
Defined.

(** *** Capabilities *)

(** The flags the class statements switch off, read from the table. *)
Lemma disabled_flags :
  JssObjects.can JssObjects.ActivationCode "can_delete" = false
  /\ JssObjects.can JssObjects.ActivationCode "can_post" = false
  /\ JssObjects.can JssObjects.ActivationCode "can_list" = false
  /\ JssObjects.can JssObjects.SavedSearch "can_put" = false
  /\ JssObjects.can JssObjects.SavedSearch "can_post" = false
  /\ JssObjects.can JssObjects.SavedSearch "can_delete" = false
  /\ JssObjects.can JssObjects.SavedSearch "can_get" = true
  /\ JssObjects.can JssObjects.Policy "can_delete" = true.
Proof. repeat split. Qed.

(** A flag is off only where the class body says so. *)
Lemma can_false_in_body (c : JssObjects.ResourceClass) (flag : string) :
  JssObjects.can c flag = false ->
  JssObjects.lookup flag (JssObjects.body (JssObjects.class_def c))
  = Some (JssObjects.VBool false).
Proof.
  unfold JssObjects.can, JssObjects.base_default.
  destruct (JssObjects.lookup flag _) as [[s|[|]|d]|]; intros H;
    try discriminate H; reflexivity.
Qed.

(** C3: for every resource class and every operation whose capability
    flag the class switches off, the dispatcher fails with
    [JSSMethodNotAllowedError] and leaves the world as it was: no request
    has been added to the log. *)
Theorem C3_disabled_operation_is_refused (env : Outside)
        (j : JssObjects.JSS) (op : JssObjects.Operation)
        (c : JssObjects.ResourceClass) (address : string)
        (data : option string) (w : World) :
  JssObjects.can c (JssObjects.flag_of op) = false ->
  JssObjects.dispatch env j op c address data w
  = (Raise (JSSMethodNotAllowedError
              (JssObjects.class_name (JssObjects.class_def c))), w)
  /\ sent (snd (JssObjects.dispatch env j op c address data w)) = sent w.
Proof.
  intros Hoff. unfold JssObjects.dispatch. rewrite Hoff. split; reflexivity.
Qed.

Lemma C3_disabled_operation_is_refused_witness :
  JssObjects.dispatch outside_computers sample_connection JssObjects.OpDelete
                      JssObjects.ActivationCode "/activationcode" None
                      fresh_world
  = (Raise (JSSMethodNotAllowedError "ActivationCode"), fresh_world)
  /\ sent (snd (JssObjects.dispatch outside_computers sample_connection
                  JssObjects.OpDelete JssObjects.ActivationCode
                  "/activationcode" None fresh_world))
     = sent fresh_world.
Proof.
  apply (C3_disabled_operation_is_refused outside_computers sample_connection
           JssObjects.OpDelete JssObjects.ActivationCode "/activationcode"
           None fresh_world).
  reflexivity.
Defined.

(** *** FileUpload *)

(** C4: when the resource type is not one of the nine enumerated values,
    or the id type is neither ["id"] nor ["name"], [FileUpload.__init__]
    fails with [JSSFileUploadParameterError]; the world is untouched, so
    nothing was sent and no file was opened. *)
Theorem C4_bad_parameter_is_refused (env : Outside) (j : JssObjects.JSS)
        (resource_type id_type : string) (_id : PyId) (resource : string)
        (w : World) :
  ~ In resource_type
       ["computers"; "mobiledevices"; "enrollmentprofiles"; "peripherals";
        "policies"; "ebooks"; "mobiledeviceapplicationsicon";
        "mobiledeviceapplicationsipa"; "diskencryptionconfigurations"]
  \/ ~ In id_type ["id"; "name"] ->
  exists msg : string,
    JssObjects.FileUpload_init env j resource_type id_type _id resource w
    = (Raise (JSSFileUploadParameterError msg), w).
Proof.
  intros Hbad. unfold JssObjects.FileUpload_init.
  destruct (str_in resource_type JssObjects.resource_types) eqn:Hrt.
  - destruct (str_in id_type JssObjects.id_types) eqn:Hit.
    + exfalso. apply str_in_true in Hrt, Hit.
      destruct Hbad as [Hbad|Hbad]; apply Hbad; assumption.
    + eexists. reflexivity.
  - eexists. reflexivity.
Qed.

Lemma C4_bad_parameter_is_refused_witness :
  exists msg : string,
    JssObjects.FileUpload_init outside_computers sample_connection
                               "widgets" "id" (PyInt 7) "/tmp/icon.png"
                               fresh_world
    = (Raise (JSSFileUploadParameterError msg), fresh_world).
Proof.
  apply (C4_bad_parameter_is_refused outside_computers sample_connection
           "widgets" "id" (PyInt 7) "/tmp/icon.png" fresh_world).
  left. apply str_in_false. reflexivity.
Defined.

(** *** Computer *)

(** What [mac_addresses] returns, by the secondary address alone. *)
Lemma mac_addresses_cases (self : JssObjects.Object) :
  JssObjects.mac_addresses self
  = if truthy (findtext (JssObjects.doc self) "general/alt_mac_address")
    then Some [findtext (JssObjects.doc self) "general/mac_address";
               findtext (JssObjects.doc self) "general/alt_mac_address"]
    else None.
Proof. reflexivity. Qed.

(** C8, as stated, fails in its second half: a record with a secondary
    address and no primary one gets a list, whose first entry is [None]. *)
Lemma C8_counterexample :
  findtext (JssObjects.doc computer_alt_only) "general/mac_address" = None
  /\ JssObjects.mac_addresses computer_alt_only
     = Some [None; Some "AA:BB:CC:DD:EE:FF"]
  /\ ~ (forall l : list (option string),
           JssObjects.mac_addresses computer_alt_only = Some l ->
           findtext (JssObjects.doc computer_alt_only) "general/mac_address"
           <> None
           /\ findtext (JssObjects.doc computer_alt_only)
                       "general/alt_mac_address" <> None).
Proof.
  split; [reflexivity|]. split; [reflexivity|].
  intros H. destruct (H _ eq_refl) as [Hprimary _]. now apply Hprimary.
Qed.

(** C8, amended: when the record has no text at
    [general/alt_mac_address] (the element is missing or empty),
    [mac_addresses] returns [None], also when [general/mac_address] has a
    text, and never a one-element list; it returns a list exactly when the
    secondary address has a text, and the list is then the value at
    [general/mac_address], [None] when that element is missing, followed
    by the secondary address. *)
Theorem C8_mac_addresses (self : JssObjects.Object) :
  (truthy (findtext (JssObjects.doc self) "general/alt_mac_address") = false ->
   JssObjects.mac_addresses self = None)
  /\ (forall l : list (option string),
         JssObjects.mac_addresses self = Some l <->
         truthy (findtext (JssObjects.doc self) "general/alt_mac_address") = true
         /\ l = [findtext (JssObjects.doc self) "general/mac_address";
                 findtext (JssObjects.doc self) "general/alt_mac_address"])
  /\ (forall l : list (option string),
         JssObjects.mac_addresses self = Some l -> length l = 2%nat).
Proof.
  rewrite mac_addresses_cases.
  destruct (truthy (findtext (JssObjects.doc self) "general/alt_mac_address")).
  - split; [intros H; discriminate H|]. split.
    + intros l. split.
      * intros H. injection H as <-. now split.
      * intros [_ ->]. reflexivity.
    + intros l H. injection H as <-. reflexivity.
  - split; [reflexivity|]. split.
    + intros l. split; [intros H; discriminate H | intros [H _]; discriminate H].
    + intros l H. discriminate H.
Qed.

Lemma C8_mac_addresses_witness :
  JssObjects.mac_addresses computer_primary_only = None.
Proof.
  apply (C8_mac_addresses computer_primary_only). reflexivity.
Defined.

(** *** MobileDevice *)

(** C9: when the record has no text at [general/bluetooth_mac_address]
    (the element is missing or empty), [bluetooth_mac_address] returns the
    value at [general/mac_address]; and it returns [None] only when the
    Bluetooth path has no text and [general/mac_address] names no
    element. *)
Theorem C9_bluetooth_mac_address (self : JssObjects.Object) :
  (truthy (findtext (JssObjects.doc self) "general/bluetooth_mac_address")
   = false ->
   JssObjects.bluetooth_mac_address self
   = findtext (JssObjects.doc self) "general/mac_address")
  /\ (JssObjects.bluetooth_mac_address self = None ->
      truthy (findtext (JssObjects.doc self) "general/bluetooth_mac_address")
      = false
      /\ findtext (JssObjects.doc self) "general/mac_address" = None).
Proof.
  unfold JssObjects.bluetooth_mac_address, py_or.
  destruct (findtext (JssObjects.doc self) "general/bluetooth_mac_address")
    as [[|ch rest]|]; simpl.
  - split; [reflexivity|]. intros H. now split.
  - split; [intros H; discriminate H | intros H; discriminate H].
  - split; [reflexivity|]. intros H. now split.
Qed.

Lemma C9_bluetooth_mac_address_witness :
  JssObjects.bluetooth_mac_address device_without_bluetooth
  = Some "00:11:22:33:44:55".
Proof.
  apply (C9_bluetooth_mac_address device_without_bluetooth). reflexivity.
Defined.

(** *** Policy: the scope lists *)

Lemma set_children_same (e : Element) : set_children e (children e) = e.
Proof. now destruct e. Qed.


Section InPlace.

Variable f : Element -> Element.
Hypothesis f_keeps_tag : forall x, tag (f x) = tag x.

Lemma update_steps_tag (p : list string) (e : Element) :
  tag (update_steps p f e) = tag e.
Proof. destruct p; [apply f_keeps_tag | reflexivity]. Qed.

(** A search that cannot tell the rewritten item from the original finds
    the same thing after the rewrite. *)
Lemma first_some_update_first {A B : Type} (h : A -> option B)
      (pred : A -> bool) (g : A -> A) (l : list A) :
  (forall x, pred x = true -> h (g x) = h x) ->
  first_some h (update_first pred g l) = first_some h l.
Proof.
  intros Hsame. induction l as [|x rest IH]; simpl; [reflexivity|].
  destruct (pred x) eqn:Hp; simpl.
  - now rewrite (Hsame x Hp).
  - now rewrite IH.
Qed.

Lemma prefixb_refl (p : list string) : prefixb p p = true.
Proof.
  induction p as [|t p IH]; simpl; [reflexivity|].
  now rewrite String.eqb_refl.
Qed.


Lemma apart_cons (t : string) (p q : list string) :
  apart (t :: p) (t :: q) = apart p q.
Proof. unfold apart. simpl. now rewrite String.eqb_refl. Qed.

(** Rewriting the element at [p] is invisible from a path that is apart
    from [p]. *)
Lemma find_steps_apart (p : list string) :
  forall (q : list string) (e : Element),
    apart p q = true ->
    find_steps q (update_steps p f e) = find_steps q e.
Proof.
  induction p as [|t p IH]; intros q e Hap.
  - discriminate Hap.
  - destruct q as [|u q].
    + discriminate Hap.
    + simpl. apply first_some_update_first. intros c Hc.
      apply andb_prop in Hc. destruct Hc as [Htc _].
      unfold has_tag. rewrite update_steps_tag.
      destruct (String.eqb (tag c) u) eqn:Hu; [|reflexivity].
      apply String.eqb_eq in Htc, Hu. subst u. rewrite <- Htc in Hap.
      rewrite apart_cons in Hap. now apply IH.
Qed.

(** At [p] itself, the element found afterwards is the rewritten one. *)
Lemma find_steps_same (p : list string) :
  forall e : Element,
    find_steps p (update_steps p f e) = option_map f (find_steps p e).
Proof.
  induction p as [|t p IH]; intros e; [reflexivity|].
  simpl. induction (children e) as [|c cs IHcs]; simpl; [reflexivity|].
  destruct (has_tag t c) eqn:Ht; simpl.
  - destruct (find_steps p c) as [r|] eqn:Hr; simpl.
    + unfold has_tag at 1. rewrite update_steps_tag. fold (has_tag t c).
      now rewrite Ht, IH, Hr.
    + now rewrite Ht, Hr.
  - now rewrite Ht.
Qed.



End InPlace.





(** The document [new] builds: only the [general] block depends on the
    arguments. *)
Lemma new_policy_shape (root name : string)
      (category : option JssObjects.CategoryArg) :
  exists general : list Element,
    snd (JssObjects.new name category (new_element root))
    = node root
           [node "general" general;
            node "scope"
                 [new_element "computers";
                  new_element "computer_groups";
                  new_element "buldings";
                  new_element "departments";
                  node "exclusions"
                       [new_element "computers";
                        new_element "computer_groups";
                        new_element "buildings";
                        new_element "departments"]];
            node "self_service" [leaf "use_for_self_service" "true"];
            node "package_configuration" [new_element "packages"];
            node "maintenance" [leaf "recon" "true"]].
Proof.
  unfold JssObjects.new.
  destruct category as [[c|s]|].
  - unfold JssObjects.category_truthy.
    destruct (children (JssObjects.doc c)); [eexists; reflexivity|].
    cbn. destruct (JssObjects.isinstance c JssObjects.Category);
      eexists; reflexivity.
  - destruct s; eexists; reflexivity.
  - eexists; reflexivity.
Qed.

(** C10: a policy built by [new] has, under [scope], a child tagged
    ["buldings"] and no child tagged ["buildings"]; [add_object_to_scope]
    hands a building to the path ["scope/buildings"]; [clear_scope] hands
    that path to [clear_list] as well, third in its round and with the
    policy as [new] left it, so that a [clear_list] that fails there and
    nowhere else makes [clear_scope] fail; on the new policy the path
    names no element, while ["scope/buldings"] names the one [new]
    created. *)
Theorem C10_new_policy_buildings
        (add_object_to_path : JssObjects.Object -> string -> Build Handle)
        (root name : string) (category : option JssObjects.CategoryArg)
        (j : JssObjects.JSS) (building : Element) :
  let policy := snd (JssObjects.new name category (new_element root)) in
  (exists scope : Element,
      find policy "scope" = Some scope
      /\ map tag (children scope)
         = ["computers"; "computer_groups"; "buldings"; "departments";
            "exclusions"]
      /\ In "buldings" (map tag (children scope))
      /\ ~ In "buildings" (map tag (children scope)))
  /\ JssObjects.add_object_to_scope
       add_object_to_path
       (JssObjects.mkObject JssObjects.Building j building) policy
     = (let (h, d) :=
          add_object_to_path
            (JssObjects.mkObject JssObjects.Building j building)
            "scope/buildings" policy in
        (Ok h, d))
  /\ In "scope/buildings" JssObjects.clear_scope_paths
  /\ (forall (self_clear_list : string -> Element -> Outcome unit * Element)
             (e : Exception),
         (forall d, self_clear_list "scope/buildings" d = (Raise e, d)) ->
         (forall p d, p <> "scope/buildings" ->
                      self_clear_list p d = (Ok tt, d)) ->
         JssObjects.clear_scope self_clear_list policy = (Raise e, policy))
  /\ find policy "scope/buildings" = None
  /\ find policy "scope/buldings" = Some (new_element "buldings").
Proof.
  intros policy. subst policy.
  destruct (new_policy_shape root name category) as [general ->].
  split.
  { eexists. split; [reflexivity|]. split; [reflexivity|]. split.
    - simpl. tauto.
    - simpl. intros H. repeat (destruct H as [H|H]; [discriminate H|]).
      exact H. }
  split; [reflexivity|].
  split; [unfold JssObjects.clear_scope_paths; simpl; tauto|].
  split; [|split; reflexivity].
  intros self_clear_list e Hfails Hpasses.
  unfold JssObjects.clear_scope, JssObjects.clear_scope_sections.
  cbn [JssObjects.for_each].
  rewrite (Hpasses ("scope/" ++ "computers"));
    [|intros H; discriminate H].
  rewrite (Hpasses ("scope/" ++ "computer_groups"));
    [|intros H; discriminate H].
  now rewrite (Hfails _).
Qed.

(* ------------------------------------------------------------------ *)
(** * Further properties *)

(** ** [src/jss.py]: the accessors *)

Lemma bind_ret_snd {A B : Type} (m : M A) (g : A -> B) (w : World) :
  snd (bind m (fun x => ret (g x)) w) = snd (m w).
Proof. unfold bind, ret. destruct (m w) as [[a|e] w']; reflexivity. Qed.

Lemma bind_ret_raise {A B : Type} (m : M A) (g : A -> B) (w : World)
      (e : Exception) :
  fst (m w) = Raise e -> fst (bind m (fun x => ret (g x)) w) = Raise e.
Proof.
  unfold bind, ret. destruct (m w) as [[a|e'] w']; simpl; intros H;
    [discriminate H | now injection H as ->].
Qed.

Lemma list_sends (env : Outside) (self : Jss.JSS) (c : Jss.ObjClass)
      (w : World) :
  snd (Jss.list env self c w)
  = after w (get_req self (Jss.get_url self c None)).
Proof.
  rewrite list_unfold. unfold Jss.get_url.
  rewrite <- (get_request_sends env self _ w).
  destruct (Jss.get_request env self _ w) as [[x|e] w']; reflexivity.
Qed.

Lemma list_raises (env : Outside) (self : Jss.JSS) (c : Jss.ObjClass)
      (w : World) (e : Exception) :
  fst (Jss.get_request env self (Jss.get_url self c None) w) = Raise e ->
  fst (Jss.list env self c w) = Raise e.
Proof.
  rewrite list_unfold. unfold Jss.get_url.
  destruct (Jss.get_request env self _ w) as [[x|e'] w']; simpl; intros H;
    [discriminate H | now injection H as ->].
Qed.

Lemma get_unfold (env : Outside) (self : Jss.JSS) (c : Jss.ObjClass)
      (id_ : option PyId) (w : World) :
  Jss.get env self c id_ w
  = Jss.get_request env self (Jss.get_url self c id_) (announced w self c id_).
Proof. destruct id_; reflexivity. Qed.

(** X1: a call of one of the accessors ([JSS.Computer], [JSS.Policy],
    ...) without an id, or with an id that is an [int] or a [str], sends
    exactly one GET request, to the address of the class or of the
    object, whatever the service answers and however many entries a
    listing has; it prints the address when an id was given and nothing
    otherwise, and opens no file. With an integer too large for an [int]
    (a [long]) it sends and prints nothing, and the object it returns
    holds the number itself. *)
Theorem X1_accessor_sends_one_request (env : Outside) (self : Jss.JSS)
        (c : Jss.ObjClass) (id_ : option PyId) (w : World) :
  let w' := snd (Jss._get_list_or_object env self c id_ w) in
  (fetched env id_ = true ->
   sent w' = (sent w ++ [get_req self (Jss.get_url self c id_)])%list
   /\ stdout w' = (stdout w ++ match id_ with
                               | Some _ => [Jss.get_url self c id_]
                               | None => []
                               end)%list
   /\ opened w' = opened w)
  /\ (fetched env id_ = false ->
      exists i : PyId,
        id_ = Some i
        /\ Jss._get_list_or_object env self c id_ w
           = (Ok (inr (Jss.mkObject c self (Jss.XValue i))), w)).
Proof.
  unfold Jss._get_list_or_object, fetched. destruct id_ as [i|]; cbn zeta.
  - unfold Jss.Object_init. destruct (Jss.int_or_str env i); split;
      intros H; try discriminate H.
    + rewrite !bind_ret_snd. rewrite get_unfold, get_request_sends.
      repeat split.
    + exists i. split; reflexivity.
  - split; intros H; [|discriminate H].
    rewrite bind_ret_snd. unfold Jss.Object_list. rewrite list_sends.
    cbn. rewrite app_nil_r. repeat split.
Qed.

Lemma X1_accessor_sends_one_request_witness :
  exists i : PyId,
    Some (PyInt 9223372036854775808) = Some i
    /\ Jss._get_list_or_object outside_computers sample_jss Jss.Computer
                               (Some (PyInt 9223372036854775808)) fresh_world
       = (Ok (inr (Jss.mkObject Jss.Computer sample_jss (Jss.XValue i))),
          fresh_world).
Proof.
  refine (proj2 (X1_accessor_sends_one_request
                   outside_computers sample_jss Jss.Computer
                   (Some (PyInt 9223372036854775808)) fresh_world) _).
  reflexivity.
Defined.

Lemma accessor_raises (env : Outside) (self : Jss.JSS) (c : Jss.ObjClass)
      (id_ : option PyId) (w : World) (e : Exception) :
  fetched env id_ = true ->
  fst (Jss.get_request env self (Jss.get_url self c id_)
                       (announced w self c id_)) = Raise e ->
  fst (Jss._get_list_or_object env self c id_ w) = Raise e.
Proof.
  intros Hfetched H. unfold Jss._get_list_or_object. destruct id_ as [i|].
  - apply bind_ret_raise. unfold Jss.Object_init.
    unfold fetched in Hfetched. rewrite Hfetched.
    apply bind_ret_raise. now rewrite get_unfold.
  - apply bind_ret_raise. unfold Jss.Object_list. now apply list_raises.
Qed.

(** X2: when an accessor is called without an id, or with an id that is
    an [int] or a [str], and the service answers its request with 401, the
    accessor raises [JSSAuthenticationError]; with 404 it raises
    [JSSGetError] with a message that names the full URL; and with any
    other status and a body that is not XML it raises the parser's error:
    a listing never comes back empty instead. This holds for every
    class. *)
Theorem X2_accessor_failures (env : Outside) (self : Jss.JSS)
        (c : Jss.ObjClass) (id_ : option PyId) (w : World)
        (response : Response) :
  fetched env id_ = true ->
  http env (sent w) (get_req self (Jss.get_url self c id_)) = Ok response ->
  (status_code response = 401%Z ->
   fst (Jss._get_list_or_object env self c id_ w)
   = Raise (JSSAuthenticationError
              "Authentication error: check the api username and password"))
  /\ (status_code response = 404%Z ->
      fst (Jss._get_list_or_object env self c id_ w)
      = Raise (JSSGetError
                 ("Object " ++ Jss.get_url self c id_ ++ " does not exist!")))
  /\ (status_code response <> 401%Z ->
      status_code response <> 404%Z ->
      fromstring env (resp_text response) = None ->
      fst (Jss._get_list_or_object env self c id_ w) = Raise ParseError).
Proof.
  intros Hfetched Hhttp.
  assert (Hsent : sent (announced w self c id_) = sent w)
    by (destruct id_; reflexivity).
  assert (Hreq := get_request_answered env self (Jss.get_url self c id_)
                    (announced w self c id_) response).
  rewrite Hsent in Hreq. specialize (Hreq Hhttp).
  repeat split.
  - intros H401. apply (accessor_raises _ _ _ _ _ _ Hfetched).
    rewrite Hreq, H401. reflexivity.
  - intros H404. apply (accessor_raises _ _ _ _ _ _ Hfetched).
    rewrite Hreq, H404. reflexivity.
  - intros H401 H404 Hparse. apply (accessor_raises _ _ _ _ _ _ Hfetched).
    rewrite Hreq, Hparse.
    apply Z.eqb_neq in H401, H404. now rewrite H401, H404.
Qed.

Lemma X2_accessor_failures_witness :
  fst (Jss._get_list_or_object
         (fixed_outside (mkResponse 404 "") "<computers/>" computers_document)
         sample_jss Jss.Computer (Some (PyInt 7)) fresh_world)
  = Raise (JSSGetError
             "Object https://jss.example.org:8443/JSSResource/computers/id/7 does not exist!").
Proof.
  apply (X2_accessor_failures
           (fixed_outside (mkResponse 404 "") "<computers/>" computers_document)
           sample_jss Jss.Computer (Some (PyInt 7)) fresh_world
           (mkResponse 404 "") eq_refl eq_refl).
  reflexivity.
Defined.

(** ** [src/jss.py]: preferences *)

(** X3: whenever the preference file reads as a dictionary,
    [JSSPrefs.__init__] raises nothing, also when keys are missing: a
    missing key is stored as [None]. A connection built from such
    preferences ignores the explicit [url], [user] and [password]
    arguments, and with no [jss_url] key its base URL is
    ["None/JSSResource"]. *)
Theorem X3_prefs_missing_keys_pass
        (expanduser : string -> string)
        (readPlist : string -> option JssTools.Plist)
        (preferences_file url user password : option string)
        (ssl_verify : bool) (d : list (string * string)) :
  readPlist
    (expanduser
       match preferences_file with
       | None => expanduser "~/Library/Preferences/org.da.jss_helper.plist"
       | Some f => f
       end)
  = Some (JssTools.PDict d) ->
  exists p : Jss.JSSPrefs,
    JssTools.JSSPrefs_init expanduser readPlist preferences_file = Ok p
    /\ Jss.JSS_init (Some p) url user password ssl_verify
       = Jss.mkJSS (fmt_s (JssTools.dict_get "jss_url" d) ++ "/JSSResource")
                   (JssTools.dict_get "jss_user" d)
                   (JssTools.dict_get "jss_pass" d) ssl_verify
    /\ (JssTools.dict_get "jss_url" d = None ->
        Jss._url (Jss.JSS_init (Some p) url user password ssl_verify)
        = "None/JSSResource").
Proof.
  intros Hread. unfold JssTools.JSSPrefs_init. rewrite Hread.
  eexists. split; [reflexivity|]. split; [reflexivity|].
  intros Hurl. cbn. now rewrite Hurl.
Qed.

Lemma X3_prefs_missing_keys_pass_witness :
  exists p : Jss.JSSPrefs,
    JssTools.JSSPrefs_init (fun s => s) (fun _ => Some prefs_without_url) None
    = Ok p
    /\ Jss.JSS_init (Some p) (Some "https://jss.example.org") None None true
       = Jss.mkJSS "None/JSSResource" (Some "api") (Some "secret") true
    /\ (JssTools.dict_get "jss_url" [("jss_user", "api"); ("jss_pass", "secret")]
        = None ->
        Jss._url (Jss.JSS_init (Some p) (Some "https://jss.example.org")
                               None None true)
        = "None/JSSResource").
Proof.
  apply (X3_prefs_missing_keys_pass
           (fun s => s) (fun _ => Some prefs_without_url) None
           (Some "https://jss.example.org") None None true
           [("jss_user", "api"); ("jss_pass", "secret")]).
  reflexivity.
Defined.

(** ** [src/jss.py]: [indent] *)

Lemma spaces_only_app (a b : string) :
  spaces_only (a ++ b) = spaces_only a && spaces_only b.
Proof.
  induction a as [|c a IH]; simpl; [reflexivity|].
  now rewrite IH, andb_assoc.
Qed.

Lemma spaces_only_repeat_pad (n : nat) :
  spaces_only (JssTools.repeat_str JssTools.pad n) = true.
Proof.
  induction n as [|n IH]; [reflexivity|].
  change (spaces_only (JssTools.pad ++ JssTools.repeat_str JssTools.pad n)
          = true).
  now rewrite spaces_only_app, IH.
Qed.

Lemma spaces_only_margin (level : nat) (a : string) :
  spaces_only a = true -> spaces_only (margin level ++ a) = true.
Proof.
  intros Ha. unfold margin.
  now rewrite !spaces_only_app, spaces_only_repeat_pad, Ha.
Qed.

Lemma spaces_only_pad_flag (b : bool) :
  spaces_only (if b then JssTools.pad else "") = true.
Proof. now destruct b. Qed.

Lemma spaces_only_pad_level (level : nat) :
  spaces_only
    (JssTools.pad ++ match level with O => "" | S _ => JssTools.pad end)
  = true.
Proof. now destruct level. Qed.

Lemma ascii_blank_spaces (s : string) :
  spaces_only s = true -> ascii_blank s = true.
Proof.
  induction s as [|c s IH]; simpl; [reflexivity|].
  intros H. apply andb_prop in H. destruct H as [Hc Hs].
  rewrite (IH Hs), andb_true_r.
  apply orb_prop in Hc. destruct Hc as [Hc|Hc]; apply Nat.eqb_eq in Hc;
    rewrite Hc; reflexivity.
Qed.

Lemma mapi_length {A B : Type} (f : nat -> A -> B) (l : list A) :
  forall n, length (JssTools.mapi f n l) = length l.
Proof.
  induction l as [|x l IH]; intros n; simpl; [reflexivity | now rewrite IH].
Qed.

Lemma mapi_again (f : nat -> Element -> Element) (kids : list Element) :
  Forall (fun k => forall n, f n (f n k) = f n k) kids ->
  forall n, JssTools.mapi f n (JssTools.mapi f n kids) = JssTools.mapi f n kids.
Proof.
  induction 1 as [|k kids Hk _ IH]; intros n; simpl; [reflexivity|].
  now rewrite Hk, IH.
Qed.

Section IndentFacts.

Variable blank : string -> bool.

(** The test accepts what [indent] writes: line feeds and spaces. *)
Hypothesis blank_spaces : forall s, spaces_only s = true -> blank s = true.

(** Everything [indent] writes is white space. *)
Lemma blank_margin (level : nat) (a : string) :
  spaces_only a = true -> blank (margin level ++ a) = true.
Proof. intros Ha. now apply blank_spaces, spaces_only_margin. Qed.

Lemma indent_leaf (tg : string) (att : list (string * string))
      (tx tl : option string) (level : nat) (more_sibs : bool) :
  JssTools.indent blank (mkElement tg att tx tl []) level more_sibs
  = if (match level with O => false | S _ => true end)
       && JssTools.empty_or_blank blank tl
    then mkElement tg att tx
                   (Some (margin level
                            ++ (if more_sibs then JssTools.pad else ""))) []
    else mkElement tg att tx tl [].
Proof. reflexivity. Qed.

Lemma indent_node (tg : string) (att : list (string * string))
      (tx tl : option string) (k : Element) (ks : list Element)
      (level : nat) (more_sibs : bool) :
  JssTools.indent blank (mkElement tg att tx tl (k :: ks)) level more_sibs
  = mkElement tg att
      (if JssTools.empty_or_blank blank tx
       then Some (margin level ++ JssTools.pad
                    ++ match level with O => "" | S _ => JssTools.pad end)
       else tx)
      (if JssTools.empty_or_blank blank tl
       then Some (margin level ++ (if more_sibs then JssTools.pad else ""))
       else tl)
      (JssTools.mapi
         (fun count kid =>
            JssTools.indent blank kid (level + 1)
                            (Nat.ltb count (length (k :: ks) - 1)))
         0 (k :: ks)).
Proof. reflexivity. Qed.

Lemma keep_ink_written (t : option string) (s : string) :
  blank s = true ->
  keep_ink blank (if JssTools.empty_or_blank blank t then Some s else t)
  = keep_ink blank t.
Proof.
  intros Hs. unfold keep_ink.
  destruct (JssTools.empty_or_blank blank t) eqn:Ht; simpl.
  - now rewrite Hs.
  - now rewrite Ht.
Qed.

Lemma rewritten_twice (t : option string) (s : string) :
  blank s = true ->
  (if JssTools.empty_or_blank
        blank (if JssTools.empty_or_blank blank t then Some s else t)
   then Some s
   else if JssTools.empty_or_blank blank t then Some s else t)
  = (if JssTools.empty_or_blank blank t then Some s else t).
Proof.
  intros Hs. destruct (JssTools.empty_or_blank blank t) eqn:Ht; simpl.
  - now rewrite Hs.
  - now rewrite Ht.
Qed.

Lemma mapi_unlayout (f : nat -> Element -> Element) (kids : list Element) :
  Forall (fun k => forall n, unlayout blank (f n k) = unlayout blank k) kids ->
  forall n,
    map (unlayout blank) (JssTools.mapi f n kids) = map (unlayout blank) kids.
Proof.
  induction 1 as [|k kids Hk _ IH]; intros n; simpl; [reflexivity|].
  now rewrite Hk, IH.
Qed.

Lemma indent_unlayout (elem : Element) :
  forall (level : nat) (more_sibs : bool),
    unlayout blank (JssTools.indent blank elem level more_sibs)
    = unlayout blank elem.
Proof.
  induction elem as [tg att tx tl kids IH] using Element_induction.
  intros level more_sibs. destruct kids as [|k ks].
  - rewrite indent_leaf.
    destruct ((match level with O => false | S _ => true end)
              && JssTools.empty_or_blank blank tl) eqn:Hcond; [|reflexivity].
    apply andb_prop in Hcond. destruct Hcond as [_ Htl].
    cbn [unlayout map]. f_equal. unfold keep_ink. rewrite Htl.
    cbn [JssTools.empty_or_blank].
    now rewrite (blank_margin level _ (spaces_only_pad_flag more_sibs)).
  - rewrite indent_node. cbn [unlayout]. f_equal.
    + apply keep_ink_written, blank_margin, spaces_only_pad_level.
    + apply keep_ink_written, blank_margin, spaces_only_pad_flag.
    + apply mapi_unlayout. revert IH. apply Forall_impl.
      intros kid Hkid n. apply Hkid.
Qed.

Lemma indent_again (elem : Element) :
  forall (level : nat) (more_sibs : bool),
    JssTools.indent blank (JssTools.indent blank elem level more_sibs)
                    level more_sibs
    = JssTools.indent blank elem level more_sibs.
Proof.
  induction elem as [tg att tx tl kids IH] using Element_induction.
  intros level more_sibs. destruct kids as [|k ks].
  - rewrite indent_leaf.
    destruct ((match level with O => false | S _ => true end)
              && JssTools.empty_or_blank blank tl) eqn:Hcond.
    + rewrite indent_leaf. apply andb_prop in Hcond.
      destruct Hcond as [Hlevel _]. rewrite Hlevel.
      cbn [JssTools.empty_or_blank andb].
      now rewrite (blank_margin level _ (spaces_only_pad_flag more_sibs)).
    + rewrite indent_leaf. now rewrite Hcond.
  - rewrite indent_node.
    set (f := fun count kid =>
                JssTools.indent blank kid (level + 1)
                                (Nat.ltb count (length (k :: ks) - 1))).
    change (JssTools.mapi f 0 (k :: ks))
      with (f 0 k :: JssTools.mapi f 1 ks).
    rewrite indent_node.
    assert (Hlen : length (f 0 k :: JssTools.mapi f 1 ks) = length (k :: ks))
      by (simpl; now rewrite mapi_length).
    rewrite Hlen. fold f.
    rewrite !rewritten_twice.
    + f_equal. apply (mapi_again f (k :: ks)).
      revert IH. apply Forall_impl. intros kid Hkid n. apply Hkid.
    + apply blank_margin, spaces_only_pad_flag.
    + apply blank_margin, spaces_only_pad_level.
Qed.

End IndentFacts.

(** X4: [indent] touches white space only. Whatever the white-space test
    of the texts is, as long as it accepts line feeds and spaces: erasing
    every [text] and [tail] that is missing or passes the test gives the
    same document before and after, so that tags, attributes, the order
    and number of children and every text with content are kept, at every
    depth, for every level and sibling flag. *)
Theorem X4_indent_changes_white_space_only
        (blank : string -> bool) (elem : Element)
        (level : nat) (more_sibs : bool) :
  (forall s, spaces_only s = true -> blank s = true) ->
  unlayout blank (JssTools.indent blank elem level more_sibs)
  = unlayout blank elem.
Proof. intros Hblank. now apply indent_unlayout. Qed.

Lemma X4_indent_changes_white_space_only_witness :
  unlayout ascii_blank (JssTools.indent ascii_blank sample_document 0 false)
  = unlayout ascii_blank sample_document.
Proof.
  apply (X4_indent_changes_white_space_only ascii_blank sample_document
           0 false ascii_blank_spaces).
Defined.

(** X5: [indent] is idempotent: indenting an indented document again, at
    the same level and with the same sibling flag, changes nothing; this
    holds for every white-space test that accepts line feeds and spaces,
    the one of ASCII text among them. *)
Theorem X5_indent_idempotent
        (blank : string -> bool) (elem : Element)
        (level : nat) (more_sibs : bool) :
  (forall s, spaces_only s = true -> blank s = true) ->
  JssTools.indent blank (JssTools.indent blank elem level more_sibs)
                  level more_sibs
  = JssTools.indent blank elem level more_sibs.
Proof. intros Hblank. now apply indent_again. Qed.

Lemma X5_indent_idempotent_witness :
  JssTools.indent ascii_blank
                  (JssTools.indent ascii_blank sample_document 0 false) 0 false
  = JssTools.indent ascii_blank sample_document 0 false.
Proof.
  apply (X5_indent_idempotent ascii_blank sample_document 0 false
           ascii_blank_spaces).
Defined.

(** ** [src/jss/jssobjects.py]: LDAPServer and FileUpload *)



(** X7: with a resource type and an id type of the two lists,
    [FileUpload.__init__] sends nothing. When the file exists it opens it
    once and returns an upload whose URL is
    [{base}/fileuploads/{resource_type}/{id_type}/{id}], the id printed by
    [str], and whose file part is named after the base name of the path;
    when the file does not exist it fails with the error of [open]. *)
Theorem X7_upload_is_prepared (env : Outside) (j : JssObjects.JSS)
        (resource_type id_type : string) (_id : PyId) (resource : string)
        (w : World) :
  In resource_type JssObjects.resource_types ->
  In id_type JssObjects.id_types ->
  (file_exists env resource = true ->
   exists fu : JssObjects.FileUpload,
     JssObjects.FileUpload_init env j resource_type id_type _id resource w
     = (Ok fu, after_open w resource)
     /\ JssObjects._upload_url fu
        = JssObjects._url j ++ "/fileuploads/" ++ resource_type ++ "/"
            ++ id_type ++ "/" ++ str _id
     /\ fst (fst (JssObjects.resource fu)) = basename resource)
  /\ (file_exists env resource = false ->
      JssObjects.FileUpload_init env j resource_type id_type _id resource w
      = (Raise (IOError resource), w)).
Proof.
  intros Hrt Hit. apply str_in_true in Hrt, Hit.
  unfold JssObjects.FileUpload_init. rewrite Hrt, Hit.
  unfold bind, open_rb. split; intros Hfile; rewrite Hfile.
  - eexists. split; [reflexivity|]. split; reflexivity.
  - reflexivity.
Qed.

Lemma X7_upload_is_prepared_witness :
  exists fu : JssObjects.FileUpload,
    JssObjects.FileUpload_init outside_upload sample_connection
                               "policies" "id" (PyInt 7) "/tmp/icon.png"
                               fresh_world
    = (Ok fu, after_open fresh_world "/tmp/icon.png")
    /\ JssObjects._upload_url fu
       = "https://jss.example.org:8443/JSSResource/fileuploads/policies/id/7"
    /\ fst (fst (JssObjects.resource fu)) = "icon.png".
Proof.
  apply (X7_upload_is_prepared outside_upload sample_connection
           "policies" "id" (PyInt 7) "/tmp/icon.png" fresh_world).
  - simpl. tauto.
  - simpl. tauto.
  - reflexivity.
Defined.

(** X8: [FileUpload.save] itself sends exactly one POST, to the upload
    URL, with the credentials of the session and the file part, whatever
    the transport answers or raises: as long as [error_handler] sends
    nothing of its own, the request log grows by that one request. Every
    answer with a status below 400 lets it return normally, 201 or not,
    and it prints only for 201 on a verbose connection; an answer with a
    status from 400 on is handed to [error_handler] after the one POST. *)
Theorem X8_save_posts_once (env : Outside)
        (tools_error_handler : Response -> M unit)
        (fu : JssObjects.FileUpload) (w : World) :
  ((forall response w0,
       sent (snd (tools_error_handler response w0)) = sent w0) ->
   sent (snd (JssObjects.save env tools_error_handler fu w))
   = (sent w ++ [upload_req fu])%list)
  /\ (forall response : Response,
         http env (sent w) (upload_req fu) = Ok response ->
         (status_code response < 400)%Z ->
         JssObjects.save env tools_error_handler fu w
         = (Ok tt,
            mkWorld (sent w ++ [upload_req fu])%list
                    (stdout w
                       ++ (if (status_code response =? 201)%Z
                              && JssObjects.verbose (JssObjects.fu_jss fu)
                           then ["POST: Success"; resp_text response]
                           else []))%list
                    (opened w)))
  /\ (forall response : Response,
         http env (sent w) (upload_req fu) = Ok response ->
         (400 <= status_code response)%Z ->
         JssObjects.save env tools_error_handler fu w
         = tools_error_handler response (after w (upload_req fu))).
Proof.
  unfold JssObjects.save, send. fold (upload_req fu).
  fold (after w (upload_req fu)).
  split; [|split].
  - intros Hquiet.
    destruct (http env (sent w) (upload_req fu)) as [response|e].
    + destruct (status_code response =? 201)%Z.
      * destruct (JssObjects.verbose (JssObjects.fu_jss fu)); reflexivity.
      * destruct (status_code response >=? 400)%Z; [|reflexivity].
        now rewrite Hquiet.
    + destruct e as [| | | | |code b| | | | | |]; try reflexivity.
      destruct (code =? 409)%Z; reflexivity.
  - intros response Hhttp Hlow. rewrite Hhttp.
    destruct (status_code response =? 201)%Z eqn:H201.
    + destruct (JssObjects.verbose (JssObjects.fu_jss fu)); cbn.
      * unfold print. cbn. now rewrite <- app_assoc.
      * now rewrite app_nil_r.
    + rewrite Z.geb_leb.
      assert (Hge : (400 <=? status_code response)%Z = false)
        by now apply Z.leb_gt.
      rewrite Hge. cbn. now rewrite app_nil_r.
  - intros response Hhttp Hhigh. rewrite Hhttp.
    assert (H201 : (status_code response =? 201)%Z = false)
      by (apply Z.eqb_neq; lia).
    rewrite H201, Z.geb_leb.
    assert (Hge : (400 <=? status_code response)%Z = true)
      by now apply Z.leb_le.
    now rewrite Hge.
Qed.

Lemma X8_save_posts_once_witness :
  sent (snd (JssObjects.save outside_upload JssObjects.error_handler
                             sample_upload fresh_world))
  = [upload_req sample_upload].
Proof.
  refine (proj1 (X8_save_posts_once outside_upload JssObjects.error_handler
                                    sample_upload fresh_world) _).
  intros response w0. reflexivity.
Defined.

(** ** [src/jss/jssobjects.py]: Package *)

Lemma set_text_tag (value : option string) (e : Element) :
  tag (set_text e value) = tag e.
Proof. reflexivity. Qed.

(** X9: [Package.set_os_requirements] fails with [AttributeError], and
    leaves the document alone, when there is no [os_requirements] element.
    Otherwise it succeeds; the element the path names is the former one
    with the new text, so that reading the path back gives the
    requirements, and whatever a path starting at another tag names is
    untouched. *)
Theorem X9_set_os_requirements (requirements : string) (self : Element) :
  (find self "os_requirements" = None ->
   JssEdits.set_os_requirements requirements self
   = (Raise AttributeError, self))
  /\ (forall e : Element,
         find self "os_requirements" = Some e ->
         let result := JssEdits.set_os_requirements requirements self in
         fst result = Ok tt
         /\ find (snd result) "os_requirements"
            = Some (set_text e (Some requirements))
         /\ findtext (snd result) "os_requirements" = Some requirements
         /\ (forall (t : string) (rest : list string),
                t <> "os_requirements" ->
                find_steps (t :: rest) (snd result)
                = find_steps (t :: rest) self)).
Proof.
  unfold JssEdits.set_os_requirements, JssEdits.assign_found_text.
  split.
  - intros Hnone. now rewrite Hnone.
  - intros e He. rewrite He. cbn zeta. cbn [fst snd].
    assert (Hfound : find (update_steps (steps "os_requirements")
                                        (fun x => set_text x (Some requirements))
                                        self) "os_requirements"
                     = Some (set_text e (Some requirements))).
    { unfold find in *.
      rewrite (find_steps_same _ (set_text_tag (Some requirements))).
      now rewrite He. }
    split; [reflexivity|]. split; [exact Hfound|]. split.
    + unfold findtext. now rewrite Hfound.
    + intros t rest Ht.
      apply (find_steps_apart _ (set_text_tag (Some requirements))).
      apply String.eqb_neq in Ht.
      assert (Ht' : String.eqb "os_requirements" t = false)
        by now rewrite String.eqb_sym.
      change (steps "os_requirements") with ["os_requirements"].
      unfold apart. cbn [prefixb]. now rewrite Ht, Ht'.
Qed.

(** X10: a package built by [Package.new] carries the file name under
    both [name] and [filename] and the category name (an empty text when
    none was given) under [category]; it has an [os_requirements] element
    without text, so [set_os_requirements] succeeds on it, after which the
    requirements read back and the names are as before. *)
Theorem X10_new_package_takes_requirements
        (root filename requirements : string) (cat_name : option string) :
  let package :=
    snd (JssEdits.Package_new filename cat_name (new_element root)) in
  let result := JssEdits.set_os_requirements requirements package in
  findtext package "name" = Some filename
  /\ findtext package "filename" = Some filename
  /\ findtext package "category"
     = Some (match cat_name with Some c => c | None => "" end)
  /\ findtext package "os_requirements" = Some ""
  /\ length (children package) = 18%nat
  /\ fst result = Ok tt
  /\ findtext (snd result) "os_requirements" = Some requirements
  /\ findtext (snd result) "name" = Some filename
  /\ findtext (snd result) "filename" = Some filename.
Proof.
  cbn zeta. repeat split.
Qed.

(** ** [src/jss/jssobjects.py]: Policy *)

Lemma set_children_twice (e : Element) (a b : list Element) :
  set_children (set_children e a) b = set_children e b.
Proof. reflexivity. Qed.

Lemma update_first_ext {A : Type} (pred : A -> bool) (g1 g2 : A -> A)
      (l : list A) :
  (forall x, g1 x = g2 x) ->
  update_first pred g1 l = update_first pred g2 l.
Proof.
  intros Hext. induction l as [|x l IH]; simpl; [reflexivity|].
  destruct (pred x); [now rewrite Hext | now rewrite IH].
Qed.

Lemma update_steps_ext (p : list string) (f g : Element -> Element) :
  (forall x, f x = g x) ->
  forall e, update_steps p f e = update_steps p g e.
Proof.
  intros Hext. induction p as [|t p IH]; intros e; simpl; [apply Hext|].
  f_equal. now apply update_first_ext.
Qed.

Section Twice.

Variables f g : Element -> Element.
Hypothesis f_keeps_tag : forall x, tag (f x) = tag x.

(** A second rewrite at the same path meets the element the first one
    left. *)
Lemma update_steps_twice (p : list string) :
  forall e : Element,
    update_steps p g (update_steps p f e)
    = update_steps p (fun x => g (f x)) e.
Proof.
  induction p as [|t p IH]; intros e; [reflexivity|].
  simpl. rewrite set_children_twice. f_equal.
  induction (children e) as [|c cs IHcs]; simpl; [reflexivity|].
  destruct (has_tag t c) eqn:Ht; simpl.
  - destruct (find_steps p c) as [r|] eqn:Hr; simpl.
    + unfold has_tag at 1. rewrite (update_steps_tag f f_keeps_tag).
      fold (has_tag t c). rewrite Ht.
      rewrite (find_steps_same f f_keeps_tag), Hr. simpl. now rewrite IH.
    + rewrite Ht, Hr. simpl. now rewrite IHcs.
  - rewrite Ht. simpl. now rewrite IHcs.
Qed.

Lemma find_steps_dead_end (p q : list string) :
  forall e : Element,
    find_steps p e = None -> find_steps (p ++ q)%list e = None.
Proof.
  induction p as [|t p IH]; intros e; [intros H; discriminate H|].
  simpl. induction (children e) as [|c cs IHcs]; simpl; [reflexivity|].
  destruct (has_tag t c).
  - destruct (find_steps p c) as [r|] eqn:Hr; [intros H; discriminate H|].
    intros H. rewrite (IH c Hr). now apply IHcs.
  - exact IHcs.
Qed.

(** Below the rewritten element, a longer path finds what it finds in
    the rewritten element. *)
Lemma find_steps_below (p q : list string) (r : Element) :
  forall e e0 : Element,
    find_steps p e = Some e0 ->
    find_steps q (f e0) = Some r ->
    find_steps (p ++ q)%list (update_steps p f e) = Some r.
Proof.
  induction p as [|t p IH]; intros e e0.
  - intros H Hq. injection H as <-. exact Hq.
  - simpl. induction (children e) as [|c cs IHcs]; simpl;
      [intros H; discriminate H|].
    destruct (has_tag t c) eqn:Ht; simpl.
    + destruct (find_steps p c) as [x|] eqn:Hx; simpl.
      * intros H Hq. injection H as <-.
        unfold has_tag at 1. rewrite (update_steps_tag f f_keeps_tag).
        fold (has_tag t c). rewrite Ht.
        now rewrite (IH c x Hx Hq).
      * intros H Hq. rewrite Ht.
        rewrite (find_steps_dead_end p q c Hx). now apply IHcs.
    + intros H Hq. rewrite Ht. now apply IHcs.
Qed.

End Twice.

Lemma recategorize_tag (category : JssObjects.CategoryArg) (e : Element) :
  tag (JssEdits.recategorize category e) = tag e.
Proof.
  unfold JssEdits.recategorize. destruct category as [c|s]; [|reflexivity].
  destruct (JssObjects.isinstance c JssObjects.Category); reflexivity.
Qed.

Lemma recategorize_twice (c1 c2 : JssObjects.CategoryArg) (e : Element) :
  JssEdits.recategorize c2 (JssEdits.recategorize c1 e)
  = JssEdits.recategorize c2 e.
Proof.
  unfold JssEdits.recategorize at 1 3. now rewrite recategorize_tag.
Qed.

(** X11: [Policy.set_category] fails with [AttributeError], and leaves
    the document alone, when there is no [general/category] element.
    Otherwise the last call wins: setting a category after another one
    gives the document that setting the last one alone gives, so setting
    the same category twice changes nothing; and after a call with a
    string the name reads back at [general/category/name]. *)
Theorem X11_set_category_last_call_wins
        (c1 c2 : JssObjects.CategoryArg) (s : string) (self : Element) :
  (find self "general/category" = None ->
   JssEdits.set_category c1 self = (Raise AttributeError, self))
  /\ JssEdits.set_category c2 (snd (JssEdits.set_category c1 self))
     = JssEdits.set_category c2 self
  /\ (find self "general/category" <> None ->
      fst (JssEdits.set_category (JssObjects.CategoryName s) self) = Ok tt
      /\ findtext (snd (JssEdits.set_category (JssObjects.CategoryName s) self))
                  "general/category/name"
         = Some s).
Proof.
  unfold JssEdits.set_category.
  destruct (find self "general/category") as [e|] eqn:He.
  - split; [intros H; discriminate H|]. split.
    + cbn [snd]. unfold find in *.
      rewrite (find_steps_same _ (recategorize_tag c1)), He. cbn [option_map].
      rewrite (update_steps_twice _ _ (recategorize_tag c1)).
      f_equal. apply update_steps_ext. intros x. apply recategorize_twice.
    + intros _. split; [reflexivity|]. cbn [snd]. unfold findtext, find.
      change (steps "general/category/name")
        with (steps "general/category" ++ ["name"])%list.
      unfold find in He.
      rewrite (find_steps_below _ (recategorize_tag (JssObjects.CategoryName s))
                 _ ["name"] (leaf "name" s) self e He); reflexivity.
  - split; [reflexivity|]. split; [cbn [snd]; now rewrite He|].
    intros H. now elim H.
Qed.

(** X12: a policy built without a category and then given one by
    [set_category] is the policy [new] builds when it is handed the
    category name at once, for every name that is not empty. *)
Theorem X12_new_then_set_category (root name s : string) :
  s <> "" ->
  JssEdits.set_category (JssObjects.CategoryName s)
                        (snd (JssObjects.new name None (new_element root)))
  = (Ok tt,
     snd (JssObjects.new name (Some (JssObjects.CategoryName s))
                         (new_element root))).
Proof.
  intros Hs. destruct s as [|ch rest]; [now elim Hs|]. reflexivity.
Qed.

Lemma X12_new_then_set_category_witness :
  JssEdits.set_category (JssObjects.CategoryName "Apps")
                        (snd (JssObjects.new "Install" None
                                             (new_element "policy")))
  = (Ok tt,
     snd (JssObjects.new "Install" (Some (JssObjects.CategoryName "Apps"))
                         (new_element "policy"))).
Proof.
  apply (X12_new_then_set_category "policy" "Install" "Apps").
  intros H. discriminate H.
Defined.

(** X13: handed an object that is not a computer, a computer group, a
    building or a department, [add_object_to_scope] and
    [add_object_to_exclusions] raise [TypeError] and leave the policy as
    it is; [add_package], handed an object that is not a package, raises
    nothing and leaves the policy as it is. None of them reaches
    [add_object_to_path]. *)
Theorem X13_objects_of_other_classes
        (add_object_to_path : JssObjects.Object -> string -> Build Handle)
        (obj : JssObjects.Object) (self : Element) :
  (~ In (JssObjects.cls obj)
        [JssObjects.Computer; JssObjects.ComputerGroup; JssObjects.Building;
         JssObjects.Department] ->
   JssObjects.add_object_to_scope add_object_to_path obj self
   = (Raise TypeError, self)
   /\ JssObjects.add_object_to_exclusions add_object_to_path obj self
      = (Raise TypeError, self))
  /\ (JssObjects.cls obj <> JssObjects.Package ->
      JssEdits.add_package add_object_to_path obj self = (tt, self)).
Proof.
  destruct obj as [c j d]. cbn [JssObjects.cls]. split.
  - intros Hother.
    unfold JssObjects.add_object_to_scope, JssObjects.add_object_to_exclusions,
      JssObjects.isinstance.
    cbn [JssObjects.cls].
    destruct c; try (split; reflexivity);
      exfalso; apply Hother; simpl; tauto.
  - intros Hother. unfold JssEdits.add_package, JssObjects.isinstance.
    cbn [JssObjects.cls].
    destruct c; try reflexivity. now elim Hother.
Qed.

Lemma X13_objects_of_other_classes_witness :
  JssObjects.add_object_to_scope (fun _ _ d => ([], d)) sample_ldap_server
                                 scoped_policy
  = (Raise TypeError, scoped_policy)
  /\ JssObjects.add_object_to_exclusions (fun _ _ d => ([], d))
                                         sample_ldap_server scoped_policy
     = (Raise TypeError, scoped_policy).
Proof.
  apply (X13_objects_of_other_classes (fun _ _ d => ([], d))
           sample_ldap_server scoped_policy).
  simpl. intros H. repeat (destruct H as [H|H]; [discriminate H|]). exact H.
Defined.

(** X14: on a policy built by [new], the exclusion list that
    [add_object_to_exclusions] addresses exists and is empty for each of
    the four accepted classes; the scope list that [add_object_to_scope]
    addresses exists and is empty for computers, computer groups and
    departments. *)
Theorem X14_new_policy_lists_resolve
        (add_object_to_path : JssObjects.Object -> string -> Build Handle)
        (root name : string) (category : option JssObjects.CategoryArg)
        (c : JssObjects.ResourceClass) (j : JssObjects.JSS) (d : Element) :
  In c [JssObjects.Computer; JssObjects.ComputerGroup; JssObjects.Building;
        JssObjects.Department] ->
  let policy := snd (JssObjects.new name category (new_element root)) in
  let obj := JssObjects.mkObject c j d in
  (exists (path : string) (e : Element),
      JssObjects.add_object_to_exclusions add_object_to_path obj policy
      = (let (h, d') := add_object_to_path obj path policy in (Ok h, d'))
      /\ find policy path = Some e
      /\ children e = [])
  /\ (c <> JssObjects.Building ->
      exists (path : string) (e : Element),
        JssObjects.add_object_to_scope add_object_to_path obj policy
        = (let (h, d') := add_object_to_path obj path policy in (Ok h, d'))
        /\ find policy path = Some e
        /\ children e = []).
Proof.
  intros Hin policy obj. subst policy obj.
  destruct (new_policy_shape root name category) as [general ->].
  simpl in Hin.
  destruct Hin as [<-|[<-|[<-|[<-|[]]]]]; split;
    try (intros Hb; now elim Hb);
    try intros _; do 2 eexists; (split; [reflexivity|]); split; reflexivity.
Qed.

Lemma X14_new_policy_lists_resolve_witness :
  exists (path : string) (e : Element),
    JssObjects.add_object_to_exclusions
      (fun _ _ d => ([], d)) sample_building
      (snd (JssObjects.new "Install" None (new_element "policy")))
    = (let (h, d') :=
         (fun _ _ d => ([], d)) sample_building path
           (snd (JssObjects.new "Install" None (new_element "policy"))) in
       (Ok h, d'))
    /\ find (snd (JssObjects.new "Install" None (new_element "policy"))) path
       = Some e
    /\ children e = [].
Proof.
  refine (proj1 (X14_new_policy_lists_resolve
                   (fun _ _ d => ([], d)) "policy" "Install" None
                   JssObjects.Building sample_connection
                   (node "building" [leaf "id" "3"; leaf "name" "Library"])
                   _)).
  simpl. tauto.
Defined.

(** X15: a policy built by [new] carries the given name at [general/name]
    and the frequency ["Once per computer"]. A category given as a
    non-empty string reads back at [general/category/name]; with no
    category, or with the empty string, the [category] element is there
    but has no [name] child at all. *)
Theorem X15_new_policy_general_block (root name s : string) :
  let built := fun category =>
                 snd (JssObjects.new name category (new_element root)) in
  (forall category,
      findtext (built category) "general/name" = Some name
      /\ findtext (built category) "general/frequency"
         = Some "Once per computer")
  /\ (s <> "" ->
      findtext (built (Some (JssObjects.CategoryName s)))
               "general/category/name" = Some s)
  /\ find (built None) "general/category" = Some (new_element "category")
  /\ find (built (Some (JssObjects.CategoryName ""))) "general/category"
     = Some (new_element "category")
  /\ find (built (Some (JssObjects.CategoryName ""))) "general/category/name"
     = None.
Proof.
  cbn zeta. split.
  - intros category. unfold JssObjects.new.
    destruct category as [[c|s']|].
    + unfold JssObjects.category_truthy.
      destruct (children (JssObjects.doc c)); [split; reflexivity|].
      cbn. destruct (JssObjects.isinstance c JssObjects.Category);
        split; reflexivity.
    + destruct s'; split; reflexivity.
    + split; reflexivity.
  - split.
    + intros Hs. destruct s as [|ch rest]; [now elim Hs | reflexivity].
    + repeat split.
Qed.

(** ** [src/jss/jssobjects.py]: the class statements *)

(** X16: every class that derives from [JSSFlatObject] switches
    [can_list] and [can_post] off in its own body and leaves [can_get]
    alone; and the only classes that switch [can_get] off are the two
    LDAP result helpers, which are also the only classes without a
    [_url]. *)
Theorem X16_flat_classes_cannot_list_or_post (c : JssObjects.ResourceClass) :
  (JssObjects.base (JssObjects.class_def c) = JssObjects.JSSFlatObject ->
   JssObjects.lookup "can_list" (JssObjects.body (JssObjects.class_def c))
   = Some (JssObjects.VBool false)
   /\ JssObjects.lookup "can_post" (JssObjects.body (JssObjects.class_def c))
      = Some (JssObjects.VBool false)
   /\ JssObjects.lookup "can_get" (JssObjects.body (JssObjects.class_def c))
      = None)
  /\ (JssObjects.lookup "can_get" (JssObjects.body (JssObjects.class_def c))
      = Some (JssObjects.VBool false)
      <-> c = JssObjects.LDAPUsersResults \/ c = JssObjects.LDAPGroupsResults)
  /\ (JssObjects.lookup "_url" (JssObjects.body (JssObjects.class_def c)) = None
      <-> c = JssObjects.LDAPUsersResults \/ c = JssObjects.LDAPGroupsResults).
Proof.
  destruct c; (split; [intros H; try discriminate H; repeat split|]);
    split; (split; [intros H; try discriminate H; tauto
                   | intros [H|H]; try discriminate H; reflexivity]).
Qed.
